(** * Skin-tone colour suggestion API: the request handler and its settings

    A shallow embedding of [app/config.py] and of the upload handler of
    [app/routes/color_analysis.py], followed by a model of the tone
    classifier the handler calls into, and the properties of each. *)

From Stdlib Require Import ZArith QArith List Bool Lia Permutation Sorted.
From stdpp Require Import base gmap strings list pretty.
Import ListNotations.
Local Open Scope string_scope.
Local Open Scope list_scope.
Local Open Scope Z_scope.

(** ** app/config.py *)

Module Config.

(** [class Settings(BaseSettings)]: three fields. *)
Record Settings := mkSettings {
  debug : bool;
  max_image_size : Z;
  allowed_image_types : list string
}.

(** The defaults of the class body. *)
Definition default_settings : Settings :=
  {| debug := false;
     max_image_size := 10 * 1024 * 1024;
     allowed_image_types := ["image/jpeg"; "image/png"; "image/webp"] |}.

(** What the process environment (and the [.env] file) may say about each
    field: nothing, or a raw text that pydantic has to parse. *)
Record Env := mkEnv {
  env_debug : option string;
  env_max_image_size : option string;
  env_allowed_image_types : option string
}.

Definition empty_env : Env :=
  {| env_debug := None; env_max_image_size := None;
     env_allowed_image_types := None |}.

(** pydantic's ValidationError names the field that did not parse. *)
Inductive ValidationError := InvalidField (field : string).

(** pydantic's parsers of raw environment text, one per field type. *)
Record Parsers := mkParsers {
  parse_bool : string -> option bool;
  parse_int : string -> option Z;
  parse_list : string -> option (list string)
}.

Section Settings_init.
Variable P : Parsers.

Definition field {A} (name : string) (parse : string -> option A)
    (raw : option string) (default : A) : ValidationError + A :=
  match raw with
  | None => inr default
  | Some txt =>
      match parse txt with
      | Some v => inr v
      | None => inl (InvalidField name)
      end
  end.

(** [Settings()]: every field is its default unless the environment gives
    a value, which must parse. The other reasons pydantic has to refuse an
    environment (a key in [.env] that the class does not declare, a list
    that is no JSON) are not told apart here; nothing below depends on why
    [Settings()] fails, only on whether it does. *)
Definition Settings_init (env : Env) : ValidationError + Settings :=
  match field "debug" (parse_bool P) (env_debug env) (debug default_settings) with
  | inl e => inl e
  | inr d =>
  match field "max_image_size" (parse_int P) (env_max_image_size env)
          (max_image_size default_settings) with
  | inl e => inl e
  | inr m =>
  match field "allowed_image_types" (parse_list P) (env_allowed_image_types env)
          (allowed_image_types default_settings) with
  | inl e => inl e
  | inr t => inr {| debug := d; max_image_size := m; allowed_image_types := t |}
  end end end.

(** Objects live in a heap and are named by their address, so that
    "the same object" can be told from "an equal object". *)
Definition loc := nat.

(** The state of the module: the objects allocated so far and the global
    [_settings : Optional[Settings]]. *)
Record ModuleState := mkState {
  heap : list Settings;
  _settings : option loc
}.

(** The state right after the module is imported: [_settings = None]. *)
Definition initial_state : ModuleState := {| heap := []; _settings := None |}.

Definition alloc (s : Settings) (st : ModuleState) : loc * list Settings :=
  (List.length (heap st), heap st ++ [s]).

(** [get_settings()]: builds the object on the first call, returns the
    stored reference afterwards. A failing [Settings()] leaves the global
    untouched and propagates. *)
Definition get_settings (env : Env) (st : ModuleState)
    : (ValidationError + loc) * ModuleState :=
  match _settings st with
  | None =>
      match Settings_init env with
      | inl e => (inl e, st)
      | inr s =>
          let (l, h) := alloc s st in
          (inr l, {| heap := h; _settings := Some l |})
      end
  | Some l => (inr l, st)
  end.

(** A run of calls, each under the environment of its moment. *)
Fixpoint get_settings_many (envs : list Env) (st : ModuleState)
    : list (ValidationError + loc) * ModuleState :=
  match envs with
  | [] => ([], st)
  | env :: rest =>
      let (r, st1) := get_settings env st in
      let (rs, st2) := get_settings_many rest st1 in
      (r :: rs, st2)
  end.

(** Reading the object behind a reference. *)
Definition deref (st : ModuleState) (l : loc) : option Settings := heap st !! l.

End Settings_init.
End Config.

(** ** The interfaces of the core, as the handler uses them *)

(** Exceptions as the handler meets them. [HTTPException] is a subclass of
    [Exception]; [KeyError] is what a dict lookup raises; every other
    exception class (the core's, pydantic's) is an [Other]. *)
Inductive Exc (E : Type) :=
| HTTPException (status_code : Z) (detail : string)
| KeyError (key : string)
| Other (e : E).
Arguments HTTPException {E} status_code detail.
Arguments KeyError {E} key.
Arguments Other {E} e.

Definition status_of {E} (e : Exc E) : option Z :=
  match e with
  | HTTPException s _ => Some s
  | _ => None
  end.

(** The status a failed call shows to the client, if it failed with an
    [HTTPException]. *)
Definition failure_status {E A} (r : Exc E + A) : option Z :=
  match r with
  | inl e => status_of e
  | inr _ => None
  end.

Module Core.

(** [core.image_processor.ImageProcessor]: one method, from the raw bytes
    to the processed image, or an exception. *)
Record ImageProcessor (E Samples : Type) := mkImageProcessor {
  process_image : list Byte.byte -> Exc E + Samples
}.

(** [core.color_analyzer.ColorAnalyzer]: both methods return a dict. *)
Record ColorAnalyzer (E Samples Value : Type) := mkColorAnalyzer {
  analyze_skin_tone : Samples -> Exc E + gmap string Value;
  get_color_recommendations : gmap string Value -> Exc E + gmap string Value
}.

(** [models.schemas]: the two pydantic constructors, which validate their
    keyword arguments and may raise. *)
Record Schemas (E Value SkinToneAnalysis ColorRecommendationResponse : Type) :=
  mkSchemas {
  SkinToneAnalysis_new :
    Value -> Value -> Value -> Value -> Exc E + SkinToneAnalysis;
  ColorRecommendationResponse_new :
    SkinToneAnalysis -> Value -> Value -> Value -> Value ->
    Exc E + ColorRecommendationResponse
}.

(** What Python's [str()] and f-strings print for the values at hand. *)
Record Runtime (E Value : Type) := mkRuntime {
  str_exc : Exc E -> string;
  fmt_filename : option string -> string;
  fmt_types : list string -> string;
  fmt_int : Z -> string;
  fmt_value : Value -> string
}.

Arguments process_image {E Samples} _ _.
Arguments analyze_skin_tone {E Samples Value} _ _.
Arguments get_color_recommendations {E Samples Value} _ _.
Arguments SkinToneAnalysis_new {E Value SkinToneAnalysis ColorRecommendationResponse} _ _ _ _ _.
Arguments ColorRecommendationResponse_new {E Value SkinToneAnalysis ColorRecommendationResponse} _ _ _ _ _ _.
Arguments str_exc {E Value} _ _.
Arguments fmt_filename {E Value} _ _.
Arguments fmt_types {E Value} _ _.
Arguments fmt_int {E Value} _ _.
Arguments fmt_value {E Value} _ _.

End Core.

(** ** app/routes/color_analysis.py *)

Module Routes.
Import Config.

(** Starlette's [UploadFile], as far as the handler reads it. *)
Record UploadFile := mkUpload {
  filename : option string;
  content_type : option string;
  body : list Byte.byte
}.

Section Handler.
Context {E Samples Value SkinToneAnalysis ColorRecommendationResponse : Type}.

(** What a run of the handler does that an observer can see, in order. *)
Inductive Event :=
| LogInfo (msg : string)
| LogError (msg : string)
| FileRead
| Call_process_image (content : list Byte.byte)
| Call_analyze_skin_tone (samples : Samples)
| Call_get_color_recommendations (data : gmap string Value).

(** A computation leaves a trace and ends in a value or an exception. *)
Definition M (A : Type) : Type := list Event * (Exc E + A).

Definition ret {A} (a : A) : M A := ([], inr a).

Definition raise {A} (e : Exc E) : M A := ([], inl e).

Definition bind {A B} (m : M A) (k : A -> M B) : M B :=
  match m with
  | (t, inl e) => (t, inl e)
  | (t, inr a) => let (t', r) := k a in (t ++ t', r)
  end.

(** [try: m  except Exception as e: h e]. *)
Definition try_except {A} (m : M A) (h : Exc E -> M A) : M A :=
  match m with
  | (t, inl e) => let (t', r) := h e in (t ++ t', r)
  | (t, inr a) => (t, inr a)
  end.

Definition emit (ev : Event) : M unit := ([ev], inr tt).

Definition call {A B} (ev : A -> Event) (f : A -> Exc E + B) (a : A) : M B :=
  ([ev a], f a).

Definition lift {A} (r : Exc E + A) : M A := ([], r).

End Handler.

Arguments Event : clear implicits.
Arguments M : clear implicits.

Declare Scope handler_scope.
Delimit Scope handler_scope with handler.
Notation "x <- m ;; k" := (bind m (fun x => k))
  (at level 100, m at next level, right associativity) : handler_scope.
Notation "m ;; k" := (bind m (fun _ => k))
  (at level 100, right associativity) : handler_scope.

Section Handler_body.
Context {E Samples Value SkinToneAnalysis ColorRecommendationResponse : Type}.
Variable rt : Core.Runtime E Value.
Variable settings : Settings.
Variable image_processor : Core.ImageProcessor E Samples.
Variable color_analyzer : Core.ColorAnalyzer E Samples Value.
Variable schemas :
  Core.Schemas E Value SkinToneAnalysis ColorRecommendationResponse.

Local Abbreviation Ev := (Event Samples Value).
Local Abbreviation HM := (M E Samples Value).

Definition logger_info (msg : string) : HM unit := emit (LogInfo msg : Ev).
Definition logger_error (msg : string) : HM unit := emit (LogError msg : Ev).

(** [await file.read()] *)
Definition read (file : UploadFile) : HM (list Byte.byte) :=
  ([FileRead : Ev], inr (body file)).

Definition len (content : list Byte.byte) : Z := Z.of_nat (List.length content).

(** [file.content_type in settings.allowed_image_types]; a missing content
    type ([None]) equals no string. *)
Definition type_allowed (ct : option string) (allowed : list string) : bool :=
  match ct with
  | Some t => existsb (String.eqb t) allowed
  | None => false
  end.

(** [d[k]] *)
Definition getitem (d : gmap string Value) (k : string) : HM Value :=
  match d !! k with
  | Some v => ret v
  | None => raise (KeyError k)
  end.

Definition invalid_type_detail : string :=
  "Invalid file type. Allowed types: "
  +:+ Core.fmt_types rt (allowed_image_types settings).

Definition too_large_detail : string :=
  "File too large. Maximum size: "
  +:+ Core.fmt_int rt (max_image_size settings) +:+ " bytes".

Definition error_detail (e : Exc E) : string :=
  "Error processing image: " +:+ Core.str_exc rt e.

(** The [try] block of [analyze_skin_tone], statement by statement. *)
Definition analyze_body (file : UploadFile) : HM ColorRecommendationResponse :=
  (logger_info ("Processing image upload: " +:+ Core.fmt_filename rt (filename file)) ;;
   (if negb (type_allowed (content_type file) (allowed_image_types settings))
    then raise (HTTPException 400 invalid_type_detail)
    else ret tt) ;;
   file_content <- read file ;;
   (if len file_content >? max_image_size settings
    then raise (HTTPException 400 too_large_detail)
    else ret tt) ;;
   logger_info "Processing image for skin tone analysis" ;;
   processed_image <-
     call Call_process_image (Core.process_image image_processor) file_content ;;
   logger_info "Analyzing skin tone" ;;
   skin_tone_data <-
     call Call_analyze_skin_tone (Core.analyze_skin_tone color_analyzer)
       processed_image ;;
   logger_info "Generating color recommendations" ;;
   color_recommendations <-
     call Call_get_color_recommendations
       (Core.get_color_recommendations color_analyzer) skin_tone_data ;;
   category <- getitem skin_tone_data "category" ;;
   undertone <- getitem skin_tone_data "undertone" ;;
   dominant_colors <- getitem skin_tone_data "dominant_colors" ;;
   confidence <- getitem skin_tone_data "confidence" ;;
   skin_tone <-
     lift (Core.SkinToneAnalysis_new schemas category undertone dominant_colors
             confidence) ;;
   recommended <- getitem color_recommendations "recommended" ;;
   avoid <- getitem color_recommendations "avoid" ;;
   palettes <- getitem color_recommendations "palettes" ;;
   tips <- getitem color_recommendations "tips" ;;
   response <-
     lift (Core.ColorRecommendationResponse_new schemas skin_tone recommended
             avoid palettes tips) ;;
   logged <- getitem skin_tone_data "category" ;;
   logger_info ("Analysis complete. Skin tone: " +:+ Core.fmt_value rt logged) ;;
   ret response)%handler.

(** The [except Exception as e] clause: log, then raise a 500. *)
Definition on_exception (e : Exc E) : HM ColorRecommendationResponse :=
  (logger_error (error_detail e) ;;
   raise (HTTPException 500 (error_detail e)))%handler.

(** [async def analyze_skin_tone(file)] *)
Definition analyze_skin_tone (file : UploadFile) : HM ColorRecommendationResponse :=
  try_except (analyze_body file) on_exception.

(** The same upload with other bytes. *)
Definition with_body (file : UploadFile) (content : list Byte.byte) : UploadFile :=
  {| filename := filename file; content_type := content_type file;
     body := content |}.

(** The calls into the core that a trace holds, in order. *)
Definition is_core_call (ev : Ev) : bool :=
  match ev with
  | Call_process_image _ | Call_analyze_skin_tone _
  | Call_get_color_recommendations _ => true
  | _ => false
  end.

Definition core_calls (t : list Ev) : list Ev := List.filter is_core_call t.

Definition is_process_image_call (ev : Ev) : bool :=
  match ev with
  | Call_process_image _ => true
  | _ => false
  end.

Definition is_file_read (ev : Ev) : bool :=
  match ev with
  | FileRead => true
  | _ => false
  end.

(** The response is the two constructors applied to the eight values read
    under the eight keys of the two dicts. *)
Definition built_from (data recs : gmap string Value)
    (resp : ColorRecommendationResponse) : Prop :=
  exists c u d cf sta r a p tp,
    data !! "category" = Some c /\ data !! "undertone" = Some u
    /\ data !! "dominant_colors" = Some d /\ data !! "confidence" = Some cf
    /\ Core.SkinToneAnalysis_new schemas c u d cf = inr sta
    /\ recs !! "recommended" = Some r /\ recs !! "avoid" = Some a
    /\ recs !! "palettes" = Some p /\ recs !! "tips" = Some tp
    /\ Core.ColorRecommendationResponse_new schemas sta r a p tp = inr resp.

(** The trace of a run that went through every stage. *)
Definition full_trace (file : UploadFile) (samples : Samples)
    (data : gmap string Value) (c : Value) : list Ev :=
  [ LogInfo ("Processing image upload: "
             +:+ Core.fmt_filename rt (filename file));
    FileRead;
    LogInfo "Processing image for skin tone analysis";
    Call_process_image (body file);
    LogInfo "Analyzing skin tone";
    Call_analyze_skin_tone samples;
    LogInfo "Generating color recommendations";
    Call_get_color_recommendations data;
    LogInfo ("Analysis complete. Skin tone: " +:+ Core.fmt_value rt c) ].

End Handler_body.
End Routes.

(** Peel the first statement off a run of statements that ended in a
    value, naming the value [x]; [inv] is the inversion lemma of
    sequencing. *)
Ltac peel inv H x :=
  let t1 := fresh "t" in
  let t2 := fresh "t" in
  let H1 := fresh "Hstep" in
  let Ht := fresh "Ht" in
  apply inv in H; destruct H as (t1 & x & t2 & H1 & H & Ht);
  rename H1 into Hstep.

(** ** The tone classifier (core/color_analyzer.py is not among the sources) *)

Module Analysis.

(** Modelled from the spec: the error taxonomy of section 7; the classes
    themselves live in the core, which the sources do not include. *)
Inductive CoreError :=
| DecodeError
| EmptyImageError
| InsufficientDataError
| UnknownCombinationError.

(** Modelled from the spec: the two enums of SkinToneResult (section 3). *)
Inductive Category := fair | light | medium | dark.

(** Modelled from the spec: the undertone enum of SkinToneResult. *)
Inductive Undertone := cool | warm | neutral.

(** Modelled from the spec: a PixelSample is an RGB triple; its weight is
    implicit, the number of times it occurs in the sample sequence. *)
Record Color := mkColor { red : Z; green : Z; blue : Z }.

(** Modelled from the spec: what the preprocessor hands to the classifier,
    the samples and the flag that says the full image was sampled because
    too few skin pixels were found (section 4.1). *)
Record Samples := mkSamples {
  pixels : list Color;
  fallback : bool
}.

(** Modelled from the spec: SkinToneResult (section 3); the confidence is
    a rational in place of a float. *)
Record SkinToneResult := mkResult {
  category : Category;
  undertone : Undertone;
  dominant_colors : list Color;
  confidence : Q
}.

(** Modelled from the spec: the externally supplied constants of section 6
    that the classifier consumes. *)
Record ClassifierConfig := mkConfig {
  clusters : nat;
  iterations : nat;
  seed : Z;
  fair_min : Z;
  light_min : Z;
  medium_min : Z;
  warm_boundary : Z;
  dead_zone : Z;
  fallback_penalty : Q
}.

(** Modelled from the spec: a cluster is its centroid and its total weight. *)
Record Cluster := mkCluster {
  centroid : Color;
  weight : nat
}.


Definition black : Color := mkColor 0 0 0.

(** Modelled from the spec: the random source behind the cluster
    initialisation, a linear congruential generator over 31 bits. It is
    the classifier's own, made afresh from the configured seed for every
    classification. *)
Definition rng_next (g : Z) : Z := (g * 1103515245 + 12345) mod 2 ^ 31.

Definition rng_seed (s : Z) : Z := s mod 2 ^ 31.

(** Modelled from the spec: the initial centroids are [k] samples drawn with
    the generator (section 4.2, "seeded deterministically"). *)
Fixpoint draw_centroids (k : nat) (px : list Color) (g : Z) : list Color :=
  match k with
  | O => []
  | S k' =>
      let g1 := rng_next g in
      nth (Z.to_nat (g1 mod Z.of_nat (List.length px))) px black
      :: draw_centroids k' px g1
  end.

(** Modelled from the spec: colour proximity is the (squared) Euclidean
    distance between triples. *)
Definition dist2 (a b : Color) : Z :=
  (red a - red b) ^ 2 + (green a - green b) ^ 2 + (blue a - blue b) ^ 2.

(** The index of the centroid nearest to [p] among [cs], counted from [i];
    the earliest wins a tie. *)
Fixpoint nearest_from (i : nat) (cs : list Color) (p : Color)
    (best : nat) (best_d : Z) : nat :=
  match cs with
  | [] => best
  | c :: rest =>
      if dist2 p c <? best_d
      then nearest_from (S i) rest p i (dist2 p c)
      else nearest_from (S i) rest p best best_d
  end.

Definition nearest (cs : list Color) (p : Color) : nat :=
  match cs with
  | [] => O
  | c :: rest => nearest_from 1 rest p O (dist2 p c)
  end.

Definition members (cs : list Color) (px : list Color) (i : nat) : list Color :=
  List.filter (fun p => Nat.eqb (nearest cs p) i) px.

Definition sum_channel (f : Color -> Z) (l : list Color) : Z :=
  fold_right (fun p acc => f p + acc) 0 l.

(** The mean colour of a non-empty group; an empty group keeps [old]. *)
Definition mean (old : Color) (l : list Color) : Color :=
  match l with
  | [] => old
  | _ =>
      let n := Z.of_nat (List.length l) in
      mkColor (sum_channel red l / n) (sum_channel green l / n)
              (sum_channel blue l / n)
  end.

(** One round of re-centring: every centroid moves to the mean of the
    samples nearest to it. *)
Definition recentre (cs : list Color) (px : list Color) : list Color :=
  List.map (fun ic => mean (snd ic) (members cs px (fst ic)))
           (List.combine (List.seq 0 (List.length cs)) cs).

Fixpoint lloyd (n : nat) (cs : list Color) (px : list Color) : list Color :=
  match n with
  | O => cs
  | S n' => lloyd n' (recentre cs px) px
  end.

(** Every centroid with the number of samples nearest to it. *)
Definition weigh (cs : list Color) (px : list Color) : list Cluster :=
  List.map (fun ic => mkCluster (snd ic) (List.length (members cs px (fst ic))))
           (List.combine (List.seq 0 (List.length cs)) cs).

Definition occupied (c : Cluster) : bool := negb (Nat.eqb (weight c) 0).

(** Insertion into a list ordered by descending weight; equal weights keep
    their order of arrival. *)
Fixpoint insert_by_weight (c : Cluster) (l : list Cluster) : list Cluster :=
  match l with
  | [] => [c]
  | d :: rest =>
      if Nat.ltb (weight d) (weight c)
      then c :: d :: rest
      else d :: insert_by_weight c rest
  end.

Fixpoint sort_by_weight (l : list Cluster) : list Cluster :=
  match l with
  | [] => []
  | c :: rest => insert_by_weight c (sort_by_weight rest)
  end.

(** Modelled from the spec: the number of clusters is fixed by the
    configuration, at least one and never more than five. *)
Definition cluster_count (cfg : ClassifierConfig) : nat :=
  Nat.max 1 (Nat.min (clusters cfg) 5).

(** Modelled from the spec: clustering (section 4.2): seeded draw, a fixed
    number of re-centring rounds, the occupied clusters by descending
    weight. *)
Definition cluster_samples (cfg : ClassifierConfig) (px : list Color)
    : list Color * list Cluster :=
  let init := draw_centroids (cluster_count cfg) px (rng_seed (seed cfg)) in
  let cs := lloyd (iterations cfg) init px in
  (cs, sort_by_weight (List.filter occupied (weigh cs px))).

(** Modelled from the spec: luminance of a colour (Rec. 601 weights, in
    thousandths) and the four brightness bands. *)
Definition luminance (c : Color) : Z :=
  (299 * red c + 587 * green c + 114 * blue c) / 1000.

Definition classify_category (cfg : ClassifierConfig) (c : Color) : Category :=
  let y := luminance c in
  if fair_min cfg <=? y then fair
  else if light_min cfg <=? y then light
  else if medium_min cfg <=? y then medium
  else dark.

(** Modelled from the spec: undertone from red against blue, neutral inside
    the dead zone around the boundary. *)
Definition classify_undertone (cfg : ClassifierConfig) (c : Color) : Undertone :=
  let signal := red c - blue c in
  if Z.abs (signal - warm_boundary cfg) <=? dead_zone cfg then neutral
  else if warm_boundary cfg <? signal then warm
  else cool.

Definition Category_eqb (a b : Category) : bool :=
  match a, b with
  | fair, fair | light, light | medium, medium | dark, dark => true
  | _, _ => false
  end.

Definition Undertone_eqb (a b : Undertone) : bool :=
  match a, b with
  | cool, cool | warm, warm | neutral, neutral => true
  | _, _ => false
  end.

(** Does the sample's nearest cluster classify as the majority does? *)
Definition agrees (cfg : ClassifierConfig) (cs : list Color)
    (cat : Category) (und : Undertone) (p : Color) : bool :=
  let c := nth (nearest cs p) cs black in
  Category_eqb (classify_category cfg c) cat
  && Undertone_eqb (classify_undertone cfg c) und.

(** Modelled from the spec: confidence is the fraction of samples that
    agree, discounted by the penalty factor after a fallback. *)
Definition score (cfg : ClassifierConfig) (cs : list Color)
    (cat : Category) (und : Undertone) (s : Samples) : Q :=
  let agreeing := List.length (List.filter (agrees cfg cs cat und) (pixels s)) in
  let total := List.length (pixels s) in
  let fraction := (Z.of_nat agreeing # Pos.of_nat total)%Q in
  if fallback s then (fraction * fallback_penalty cfg)%Q else fraction.

(** Modelled from the spec: [classify(samples)] (section 4.2). *)
Definition classify (cfg : ClassifierConfig) (s : Samples)
    : CoreError + SkinToneResult :=
  match pixels s with
  | [] => inl InsufficientDataError
  | _ =>
      let (cs, ranked) := cluster_samples cfg (pixels s) in
      match ranked with
      | [] => inl InsufficientDataError
      | top :: _ =>
          let cat := classify_category cfg (centroid top) in
          let und := classify_undertone cfg (centroid top) in
          inr {| category := cat;
                 undertone := und;
                 dominant_colors := List.map centroid ranked;
                 confidence := score cfg cs cat und s |}
      end
  end.

End Analysis.

(** ** A stand-in core, to run the handler on concrete uploads *)

Module Fixture.
Import Analysis.

(** The values the stand-in's dicts hold. *)
Inductive Value :=
| Text (s : string)
| Number (q : Q)
| Colors (l : list Color)
| Texts (l : list string)
| Palettes (l : list (string * list string)).

Record SkinToneAnalysis := mkSkinTone {
  st_category : Value;
  st_undertone : Value;
  st_dominant_colors : Value;
  st_confidence_score : Value
}.

Record ColorRecommendationResponse := mkResponse {
  skin_tone : SkinToneAnalysis;
  recommended_colors : Value;
  avoid_colors : Value;
  color_palettes : Value;
  styling_tips : Value
}.

Definition schemas
    : Core.Schemas CoreError Value SkinToneAnalysis ColorRecommendationResponse :=
  {| Core.SkinToneAnalysis_new := fun c u d cf => inr (mkSkinTone c u d cf);
     Core.ColorRecommendationResponse_new :=
       fun s r a p t => inr (mkResponse s r a p t) |}.

Definition show_error (e : CoreError) : string :=
  match e with
  | DecodeError => "cannot identify image file"
  | EmptyImageError => "image has no pixels"
  | InsufficientDataError => "unable to analyze image"
  | UnknownCombinationError => "no recommendation for this combination"
  end.

Definition show_value (v : Value) : string :=
  match v with
  | Text s => s
  | _ => "..."
  end.

(** Python's [repr] of a [str], for text in ASCII: single quotes unless
    the text holds a single quote and no double quote; the backslash, the
    chosen quote, newline, carriage return and tab escaped by a backslash;
    the other control characters as [\xNN]. *)
Definition single_quote : Ascii.ascii := Ascii.ascii_of_nat 39.

Definition double_quote : Ascii.ascii := Ascii.ascii_of_nat 34.

Definition backslash : Ascii.ascii := Ascii.ascii_of_nat 92.

Fixpoint holds (c : Ascii.ascii) (s : string) : bool :=
  match s with
  | EmptyString => false
  | String d rest => Ascii.eqb c d || holds c rest
  end.

Definition hex_digit (n : N) : Ascii.ascii :=
  Ascii.ascii_of_N (if (n <? 10)%N then 48 + n else 87 + n).

Definition repr_char (quote c : Ascii.ascii) : string :=
  let n := Ascii.N_of_ascii c in
  if Ascii.eqb c backslash then String backslash (String backslash EmptyString)
  else if Ascii.eqb c quote then String backslash (String c EmptyString)
  else if (n =? 10)%N then String backslash "n"
  else if (n =? 13)%N then String backslash "r"
  else if (n =? 9)%N then String backslash "t"
  else if ((n <? 32) || (n =? 127))%N
  then String backslash
         (String (Ascii.ascii_of_nat 120)
            (String (hex_digit (n / 16)) (String (hex_digit (n mod 16)) EmptyString)))
  else String c EmptyString.

Fixpoint repr_chars (quote : Ascii.ascii) (s : string) : string :=
  match s with
  | EmptyString => EmptyString
  | String c rest => repr_char quote c +:+ repr_chars quote rest
  end.

Definition repr_str (s : string) : string :=
  let quote :=
    if holds single_quote s && negb (holds double_quote s)
    then double_quote else single_quote in
  String quote (repr_chars quote s +:+ String quote EmptyString).

(** [repr] of a list of [str]: what an f-string prints for it. *)
Definition repr_list (l : list string) : string :=
  "[" +:+ String.concat ", " (List.map repr_str l) +:+ "]".

Definition rt : Core.Runtime CoreError Value :=
  {| Core.str_exc := fun e =>
       match e with
       | HTTPException s d => pretty s +:+ ": " +:+ d
       | KeyError k => repr_str k
       | Other x => show_error x
       end;
     Core.fmt_filename := fun o => match o with Some n => n | None => "None" end;
     Core.fmt_types := repr_list;
     Core.fmt_int := fun z => pretty z;
     Core.fmt_value := show_value |}.

(** A decoder for a toy format: every byte is one grey pixel; no bytes, no
    image. *)
Definition grey (b : Byte.byte) : Color :=
  let v := Z.of_N (Byte.to_N b) in mkColor v v v.

Definition image_processor : Core.ImageProcessor CoreError Samples :=
  {| Core.process_image := fun content =>
       match content with
       | [] => inl (Other DecodeError)
       | _ => inr (mkSamples (List.map grey content) false)
       end |}.

Definition cfg : ClassifierConfig :=
  {| clusters := 3; iterations := 4; seed := 42;
     fair_min := 235; light_min := 170; medium_min := 100;
     warm_boundary := 20; dead_zone := 10;
     fallback_penalty := (8 # 10)%Q |}.

Definition category_name (c : Category) : string :=
  match c with
  | fair => "fair" | light => "light" | medium => "medium" | dark => "dark"
  end.

Definition undertone_name (u : Undertone) : string :=
  match u with
  | cool => "cool" | warm => "warm" | neutral => "neutral"
  end.

Definition to_dict (r : SkinToneResult) : gmap string Value :=
  <["category" := Text (category_name (category r))]>
  (<["undertone" := Text (undertone_name (undertone r))]>
  (<["dominant_colors" := Colors (dominant_colors r)]>
  (<["confidence" := Number (confidence r)]> ∅))).

Definition some_advice : gmap string Value :=
  <["recommended" := Texts ["navy"; "emerald"]]>
  (<["avoid" := Texts ["neon yellow"]]>
  (<["palettes" := Palettes [("classic", ["navy"; "white"])]]>
  (<["tips" := Texts ["Wear what you like."]]> ∅))).

Definition color_analyzer : Core.ColorAnalyzer CoreError Samples Value :=
  {| Core.analyze_skin_tone := fun s =>
       match classify cfg s with
       | inl e => inl (Other e)
       | inr r => inr (to_dict r)
       end;
     Core.get_color_recommendations := fun _ => inr some_advice |}.


(** A synthetic image of one colour, well detected as skin. *)
Definition uniform (c : Color) : Samples :=
  {| pixels := List.repeat c 6; fallback := false |}.

(** The same image after a fallback to full-image sampling. *)
Definition uniform_fallback (c : Color) : Samples :=
  {| pixels := List.repeat c 6; fallback := true |}.

(** The same analyzer with a gap in its catalogue. *)
Definition color_analyzer_with_gap : Core.ColorAnalyzer CoreError Samples Value :=
  {| Core.analyze_skin_tone := Core.analyze_skin_tone color_analyzer;
     Core.get_color_recommendations := fun _ => inl (Other UnknownCombinationError) |}.

(** Settings as [MAX_IMAGE_SIZE=4] in the environment would give them. *)
Definition small_settings : Config.Settings :=
  {| Config.debug := false;
     Config.max_image_size := 4;
     Config.allowed_image_types := Config.allowed_image_types Config.default_settings |}.

Definition portrait : Routes.UploadFile :=
  {| Routes.filename := Some "face.png";
     Routes.content_type := Some "image/png";
     Routes.body := [Byte.xe0; Byte.xdc; Byte.xe1] |}.

Definition notes : Routes.UploadFile :=
  {| Routes.filename := Some "notes.txt";
     Routes.content_type := Some "text/plain";
     Routes.body := [Byte.x68; Byte.x69] |}.

Definition big_portrait : Routes.UploadFile :=
  {| Routes.filename := Some "big.png";
     Routes.content_type := Some "image/png";
     Routes.body := [Byte.xe0; Byte.xdc; Byte.xe1; Byte.xe0; Byte.xdd] |}.

Definition big_notes : Routes.UploadFile :=
  {| Routes.filename := Some "big.txt";
     Routes.content_type := Some "text/plain";
     Routes.body := [Byte.x68; Byte.x69; Byte.x68; Byte.x69; Byte.x21] |}.

(** One byte more than the default limit, and not an image. *)
Definition huge_notes : Routes.UploadFile :=
  {| Routes.filename := Some "huge.txt";
     Routes.content_type := Some "text/plain";
     Routes.body := List.repeat Byte.x00 (Z.to_nat (10 * 1024 * 1024 + 1)) |}.

Definition broken_image : Routes.UploadFile :=
  {| Routes.filename := Some "empty.png";
     Routes.content_type := Some "image/png";
     Routes.body := [] |}.

(** Parsers that understand a few literal texts. *)
Definition parsers : Config.Parsers :=
  {| Config.parse_bool := fun s =>
       if String.eqb s "true" then Some true
       else if String.eqb s "false" then Some false else None;
     Config.parse_int := fun s =>
       if String.eqb s "4" then Some 4 else None;
     Config.parse_list := fun _ => None |}.

Definition handle (st : Config.Settings)
    (ca : Core.ColorAnalyzer CoreError Samples Value) (file : Routes.UploadFile)
    : Routes.M CoreError Samples Value ColorRecommendationResponse :=
  Routes.analyze_skin_tone rt st image_processor ca schemas file.

End Fixture.

(** ** More of app/routes/color_analysis.py *)

Module Endpoints.
Import Routes.

(** The same upload under another file name. *)
Definition with_filename (file : UploadFile) (name : option string) : UploadFile :=
  {| filename := name; content_type := content_type file; body := body file |}.

Section Response.
Context {E Samples Value SkinToneAnalysis ColorRecommendationResponse : Type}.
Variable rt : Core.Runtime E Value.
Variable schemas :
  Core.Schemas E Value SkinToneAnalysis ColorRecommendationResponse.

Local Abbreviation Ev := (Event Samples Value).
Local Abbreviation HM := (M E Samples Value).

(** The last statements of the [try] block of [analyze_skin_tone], from
    "Create response" to the [return]: what runs once the three calls
    into the core have returned their values. *)
Definition build_response (skin_tone_data color_recommendations : gmap string Value)
    : HM ColorRecommendationResponse :=
  (category <- getitem skin_tone_data "category" ;;
   undertone <- getitem skin_tone_data "undertone" ;;
   dominant_colors <- getitem skin_tone_data "dominant_colors" ;;
   confidence <- getitem skin_tone_data "confidence" ;;
   skin_tone <-
     lift (Core.SkinToneAnalysis_new schemas category undertone dominant_colors
             confidence) ;;
   recommended <- getitem color_recommendations "recommended" ;;
   avoid <- getitem color_recommendations "avoid" ;;
   palettes <- getitem color_recommendations "palettes" ;;
   tips <- getitem color_recommendations "tips" ;;
   response <-
     lift (Core.ColorRecommendationResponse_new schemas skin_tone recommended
             avoid palettes tips) ;;
   logged <- getitem skin_tone_data "category" ;;
   logger_info ("Analysis complete. Skin tone: " +:+ Core.fmt_value rt logged) ;;
   ret response)%handler.

(** The trace of a run up to each of its stages. *)
Definition trace_upload (file : UploadFile) : list Ev :=
  [LogInfo ("Processing image upload: "
            +:+ Core.fmt_filename rt (filename file))].

Definition trace_read (file : UploadFile) : list Ev :=
  trace_upload file ++ [FileRead].

Definition trace_process (file : UploadFile) : list Ev :=
  trace_read file
  ++ [LogInfo "Processing image for skin tone analysis";
      Call_process_image (body file)].

Definition trace_analyze (file : UploadFile) (samples : Samples) : list Ev :=
  trace_process file
  ++ [LogInfo "Analyzing skin tone"; Call_analyze_skin_tone samples].

Definition trace_recommend (file : UploadFile) (samples : Samples)
    (data : gmap string Value) : list Ev :=
  trace_analyze file samples
  ++ [LogInfo "Generating color recommendations";
      Call_get_color_recommendations data].

Definition is_log_error (ev : Ev) : bool :=
  match ev with
  | LogError _ => true
  | _ => false
  end.

(** The first of [keys] that the dict does not hold, in the order given. *)
Fixpoint first_missing (d : gmap string Value) (keys : list string)
    : option string :=
  match keys with
  | [] => None
  | k :: rest =>
      match d !! k with
      | Some _ => first_missing d rest
      | None => Some k
      end
  end.

(** The keys the handler reads from the classification, in reading order. *)
Definition skin_tone_keys : list string :=
  ["category"; "undertone"; "dominant_colors"; "confidence"].

End Response.

Section Palettes.
Context {E Samples Value Response : Type}.
Variable rt : Core.Runtime E Value.

(** [color_analyzer.get_all_palettes()] *)
Variable get_all_palettes : unit -> Exc E + Value.

(** [JSONResponse(content=...)]: the constructor renders the content, and
    raises when it cannot. *)
Variable JSONResponse : gmap string Value -> Exc E + Response.

Definition palettes_detail : string := "Error fetching color palettes".

(** [async def get_color_palettes()] *)
Definition get_color_palettes : M E Samples Value Response :=
  try_except
    (palettes <- lift (get_all_palettes tt) ;;
     lift (JSONResponse {[ "palettes" := palettes ]}))%handler
    (fun e =>
       logger_error ("Error fetching color palettes: " +:+ Core.str_exc rt e) ;;
       raise (HTTPException 500 palettes_detail))%handler.

End Palettes.

Section Runs.
Context {E Samples Value SkinToneAnalysis ColorRecommendationResponse : Type}.
Variable rt : Core.Runtime E Value.
Variable settings : Config.Settings.
Variable image_processor : Core.ImageProcessor E Samples.
Variable color_analyzer : Core.ColorAnalyzer E Samples Value.
Variable schemas :
  Core.Schemas E Value SkinToneAnalysis ColorRecommendationResponse.

Local Abbreviation allowed file :=
  (type_allowed (content_type file) (Config.allowed_image_types settings)).

(** The seven ways through the [try] block of [analyze_skin_tone], each
    with the trace it leaves and the way it ends. *)
Inductive body_run (file : UploadFile)
    : list (Event Samples Value) -> Exc E + ColorRecommendationResponse -> Prop :=
| run_invalid_type :
    allowed file = false ->
    body_run file (trace_upload rt file)
      (inl (HTTPException 400 (invalid_type_detail rt settings)))
| run_too_large :
    allowed file = true ->
    len (body file) > Config.max_image_size settings ->
    body_run file (trace_read rt file)
      (inl (HTTPException 400 (too_large_detail rt settings)))
| run_process_failed (e : Exc E) :
    allowed file = true ->
    len (body file) <= Config.max_image_size settings ->
    Core.process_image image_processor (body file) = inl e ->
    body_run file (trace_process rt file) (inl e)
| run_analyze_failed (samples : Samples) (e : Exc E) :
    allowed file = true ->
    len (body file) <= Config.max_image_size settings ->
    Core.process_image image_processor (body file) = inr samples ->
    Core.analyze_skin_tone color_analyzer samples = inl e ->
    body_run file (trace_analyze rt file samples) (inl e)
| run_recommend_failed (samples : Samples) (data : gmap string Value)
    (e : Exc E) :
    allowed file = true ->
    len (body file) <= Config.max_image_size settings ->
    Core.process_image image_processor (body file) = inr samples ->
    Core.analyze_skin_tone color_analyzer samples = inr data ->
    Core.get_color_recommendations color_analyzer data = inl e ->
    body_run file (trace_recommend rt file samples data) (inl e)
| run_response_failed (samples : Samples) (data recs : gmap string Value)
    (e : Exc E) :
    allowed file = true ->
    len (body file) <= Config.max_image_size settings ->
    Core.process_image image_processor (body file) = inr samples ->
    Core.analyze_skin_tone color_analyzer samples = inr data ->
    Core.get_color_recommendations color_analyzer data = inr recs ->
    build_response (Samples := Samples) rt schemas data recs = ([], inl e) ->
    body_run file (trace_recommend rt file samples data) (inl e)
| run_complete (samples : Samples) (data recs : gmap string Value)
    (c : Value) (resp : ColorRecommendationResponse) :
    allowed file = true ->
    len (body file) <= Config.max_image_size settings ->
    Core.process_image image_processor (body file) = inr samples ->
    Core.analyze_skin_tone color_analyzer samples = inr data ->
    Core.get_color_recommendations color_analyzer data = inr recs ->
    data !! "category" = Some c ->
    built_from schemas data recs resp ->
    body_run file (full_trace rt file samples data c) (inr resp).

End Runs.
End Endpoints.

(** ** app/__init__.py *)

Module App.
Import Config.

(** What an application routes on: an endpoint under a method and a path,
    or a directory mounted under a path. *)
Inductive Route :=
| APIRoute (method path endpoint : string) (tags : list string)
| Mount (path directory name : string).

(** [router = APIRouter()] of color_analysis.py with its three decorated
    endpoints, in the order of the file. *)
Definition router : list Route :=
  [ APIRoute "POST" "/analyze-skin-tone" "analyze_skin_tone" [];
    APIRoute "GET" "/color-palettes" "get_color_palettes" [];
    APIRoute "GET" "/skin-tone-guide" "get_skin_tone_guide" [] ].

(** The keyword arguments of [CORSMiddleware]. *)
Record CORS := mkCORS {
  allow_origins : list string;
  allow_credentials : bool;
  allow_methods : list string;
  allow_headers : list string
}.

(** A [FastAPI] object, as far as this code configures it. *)
Record FastAPI := mkApp {
  title : string;
  description : string;
  version : string;
  docs_url : option string;
  redoc_url : option string;
  routes : list Route;
  user_middleware : list CORS
}.

Definition prefixed (prefix : string) (tags : list string) (r : Route) : Route :=
  match r with
  | APIRoute m p e ts => APIRoute m (prefix +:+ p) e (tags ++ ts)
  | Mount p d n => Mount (prefix +:+ p) d n
  end.

(** [app.include_router(router, prefix=..., tags=...)] *)
Definition include_router (app : FastAPI) (r : list Route) (prefix : string)
    (tags : list string) : FastAPI :=
  {| title := title app; description := description app;
     version := version app; docs_url := docs_url app;
     redoc_url := redoc_url app;
     routes := routes app ++ List.map (prefixed prefix tags) r;
     user_middleware := user_middleware app |}.

(** Starting up fails when [Settings()] does. A reference that names no
    object is the other way out of the model; no state that the module's
    own functions produce leads there. *)
Inductive StartupError :=
| InvalidSettings (e : ValidationError)
| NoSuchObject (l : loc).

Section Create_app.
Variable P : Parsers.

(** [create_app()] *)
Definition create_app (env : Env) (st : ModuleState)
    : (StartupError + FastAPI) * ModuleState :=
  match get_settings P env st with
  | (inl e, st1) => (inl (InvalidSettings e), st1)
  | (inr l, st1) =>
      match deref st1 l with
      | None => (inl (NoSuchObject l), st1)
      | Some settings =>
          let app :=
            {| title := "Skin Tone Color Suggestion API";
               description :=
                 "AI-powered color recommendations based on skin tone analysis";
               version := "1.0.0";
               docs_url := if debug settings then Some "/docs" else None;
               redoc_url := if debug settings then Some "/redoc" else None;
               routes := [];
               user_middleware := [] |} in
          (inr (include_router app router "/api/v1" ["color-analysis"]), st1)
      end
  end.

End Create_app.
End App.

(** ** main.py *)

Module Main.
Import Config App.

(** [app.add_middleware(CORSMiddleware, ...)] *)
Definition add_middleware (app : FastAPI) (m : CORS) : FastAPI :=
  {| title := title app; description := description app;
     version := version app; docs_url := docs_url app;
     redoc_url := redoc_url app; routes := routes app;
     user_middleware := m :: user_middleware app |}.

(** [app.mount(...)] and [@app.get(...)]: one more route, after the others. *)
Definition add_route (app : FastAPI) (r : Route) : FastAPI :=
  {| title := title app; description := description app;
     version := version app; docs_url := docs_url app;
     redoc_url := redoc_url app; routes := routes app ++ [r];
     user_middleware := user_middleware app |}.

Definition cors : CORS :=
  {| allow_origins := ["*"]; allow_credentials := true;
     allow_methods := ["*"]; allow_headers := ["*"] |}.

(** What a started process holds: the application, the [settings] global
    of the routes module, and the state of the config module. *)
Record Started := mkStarted {
  app : FastAPI;
  router_settings : loc;
  config_state : ModuleState
}.

Section Startup.
Variable P : Parsers.

(** The module body of main.py, top to bottom, in a fresh process.
    [from app import create_app] runs app/__init__.py, whose import of
    [app.routes.color_analysis] runs that module's
    [settings = get_settings()] under the environment of that moment;
    [load_dotenv()] comes next and leaves the environment as
    [env_after_dotenv]; then [create_app()], the middleware, the mount of
    the static directory if there is one, and the health route. The
    [__main__] block, which hands the application to uvicorn, is not part
    of it. The model follows the run in which the module bodies raise
    nothing but what [Settings()] raises: the constructors of the core,
    also called at import, return, and [static], if it exists, is a
    directory. *)
Definition main (env_at_import env_after_dotenv : Env) (static_exists : bool)
    : StartupError + Started :=
  match get_settings P env_at_import initial_state with
  | (inl e, _) => inl (InvalidSettings e)
  | (inr l, st1) =>
      match create_app P env_after_dotenv st1 with
      | (inl e, _) => inl e
      | (inr created, st2) =>
          let with_cors := add_middleware created cors in
          let mounted :=
            if static_exists
            then add_route with_cors (Mount "/static" "static" "static")
            else with_cors in
          inr {| app := add_route mounted (APIRoute "GET" "/health" "health_check" []);
                 router_settings := l;
                 config_state := st2 |}
      end
  end.

End Startup.

(** The application [main] leaves behind when the settings are [s]. *)
Definition started_app (s : Settings) (static_exists : bool) : FastAPI :=
  {| title := "Skin Tone Color Suggestion API";
     description :=
       "AI-powered color recommendations based on skin tone analysis";
     version := "1.0.0";
     docs_url := if debug s then Some "/docs" else None;
     redoc_url := if debug s then Some "/redoc" else None;
     routes :=
       [ APIRoute "POST" "/api/v1/analyze-skin-tone" "analyze_skin_tone"
           ["color-analysis"];
         APIRoute "GET" "/api/v1/color-palettes" "get_color_palettes"
           ["color-analysis"];
         APIRoute "GET" "/api/v1/skin-tone-guide" "get_skin_tone_guide"
           ["color-analysis"] ]
       ++ (if static_exists then [Mount "/static" "static" "static"] else [])
       ++ [APIRoute "GET" "/health" "health_check" []];
     user_middleware := [cors] |}.

End Main.

(** ** More stand-ins *)

Module Fixture_more.
Import Analysis Fixture.

(** An analyzer whose classification forgets the confidence. *)
Definition color_analyzer_without_confidence
    : Core.ColorAnalyzer CoreError Samples Value :=
  {| Core.analyze_skin_tone := fun s =>
       match Core.analyze_skin_tone color_analyzer s with
       | inl e => inl e
       | inr d => inr (delete "confidence" d)
       end;
     Core.get_color_recommendations := fun _ => inr some_advice |}.

(** What the stand-in core makes of the portrait, stage by stage. *)
Definition portrait_samples : Samples :=
  {| pixels := [mkColor 224 224 224; mkColor 220 220 220; mkColor 225 225 225];
     fallback := false |}.

Definition portrait_result : SkinToneResult :=
  {| category := light;
     undertone := cool;
     dominant_colors :=
       [mkColor 225 225 225; mkColor 224 224 224; mkColor 220 220 220];
     confidence := (3 # 3)%Q |}.

Definition portrait_data : gmap string Value := to_dict portrait_result.

Definition portrait_response : ColorRecommendationResponse :=
  {| skin_tone :=
       {| st_category := Text "light";
          st_undertone := Text "cool";
          st_dominant_colors := Colors (dominant_colors portrait_result);
          st_confidence_score := Number (3 # 3)%Q |};
     recommended_colors := Texts ["navy"; "emerald"];
     avoid_colors := Texts ["neon yellow"];
     color_palettes := Palettes [("classic", ["navy"; "white"])];
     styling_tips := Texts ["Wear what you like."] |}.


(** An environment whose DEBUG is no boolean, and one that turns it on. *)
Definition bad_env : Config.Env := Config.mkEnv (Some "maybe") None None.

Definition debug_env : Config.Env := Config.mkEnv (Some "true") None None.

End Fixture_more.

(** * Properties *)

(** ** The settings singleton *)

Section Settings_singleton.
Import Config.
Variable P : Parsers.

Lemma get_settings_stored (env : Env) (st : ModuleState) (l : loc) :
  _settings st = Some l -> get_settings P env st = (inr l, st).
Proof. intros H. unfold get_settings. now rewrite H. Qed.

Lemma get_settings_stores (env : Env) (st st' : ModuleState) (o : loc) :
  get_settings P env st = (inr o, st') -> _settings st' = Some o.
Proof.
  unfold get_settings, alloc.
  destruct (_settings st) as [l|] eqn:Hs.
  - intros [= <- <-]. exact Hs.
  - destruct (Settings_init P env) as [e|s]; [discriminate|].
    intros [= <- <-]. reflexivity.
Qed.

Lemma get_settings_first (env : Env) (st st' : ModuleState) (o : loc) :
  _settings st = None ->
  get_settings P env st = (inr o, st') ->
  exists s, Settings_init P env = inr s /\ deref st o = None
            /\ deref st' o = Some s.
Proof.
  unfold get_settings, alloc, deref. intros ->.
  destruct (Settings_init P env) as [e|s]; [discriminate|].
  intros [= <- <-]. exists s. cbn [heap]. split; [reflexivity|]. split.
  - apply lookup_ge_None_2. lia.
  - rewrite lookup_app_r by lia. now rewrite Nat.sub_diag.
Qed.

Lemma get_settings_many_stored (envs : list Env) (st : ModuleState) (l : loc) :
  _settings st = Some l ->
  get_settings_many P envs st = (List.map (fun _ => inr l) envs, st).
Proof.
  intros H. induction envs as [|env rest IH]; cbn [get_settings_many List.map].
  - reflexivity.
  - rewrite (get_settings_stored env st l H), IH. reflexivity.
Qed.

(** C9. [get_settings] is a lazily initialised singleton. Whenever a call
    returns an object [o]: if the global was still unset, that call built
    [o] afresh from the environment; and from then on every call, under
    whatever environment, returns the very same [o] and changes nothing,
    so any two later calls read equal settings. *)
Theorem get_settings_singleton (env : Env) (st st' : ModuleState) (o : loc) :
  get_settings P env st = (inr o, st') ->
  (_settings st = None ->
     exists s, Settings_init P env = inr s /\ deref st o = None
               /\ deref st' o = Some s)
  /\ (forall envs,
        get_settings_many P envs st' = (List.map (fun _ => inr o) envs, st'))
  /\ (forall env1 env2,
        exists st1 st2,
          get_settings P env1 st' = (inr o, st1)
          /\ get_settings P env2 st1 = (inr o, st2)
          /\ deref st1 o = deref st2 o).
Proof.
  intros Hcall. pose proof (get_settings_stores _ _ _ _ Hcall) as Hs.
  split; [|split].
  - intros Hnone. eapply get_settings_first; eassumption.
  - intros envs. now apply get_settings_many_stored.
  - intros env1 env2. exists st', st'.
    rewrite !(get_settings_stored _ st' o Hs). auto.
Qed.

End Settings_singleton.

(** With nothing in the environment, [Settings()] is the class defaults. *)
Lemma Settings_init_defaults (P : Config.Parsers) :
  Config.Settings_init P Config.empty_env = inr Config.default_settings.
Proof. reflexivity. Qed.

Lemma get_settings_singleton_witness :
  Config.get_settings Fixture.parsers Config.empty_env Config.initial_state
    = (inr 0%nat, Config.mkState [Config.default_settings] (Some 0%nat))
  /\ Config.get_settings_many Fixture.parsers
       [Config.mkEnv None (Some "4") None; Config.mkEnv (Some "maybe") None None]
       (Config.mkState [Config.default_settings] (Some 0%nat))
     = ([inr 0%nat; inr 0%nat],
        Config.mkState [Config.default_settings] (Some 0%nat)).
Proof.
  split; [reflexivity|].
  apply (get_settings_singleton Fixture.parsers Config.empty_env
           Config.initial_state
           (Config.mkState [Config.default_settings] (Some 0%nat)) 0%nat).
  reflexivity.
Defined.

(** ** The upload handler *)

Section Handler_monad.
Import Routes.
Context {E Samples Value : Type}.
Local Abbreviation HM := (M E Samples Value).

Lemma bind_value {A B} (m : HM A) (k : A -> HM B) (t : list (Event Samples Value)) (b : B) :
  bind m k = (t, inr b) ->
  exists t1 a t2, m = (t1, inr a) /\ k a = (t2, inr b) /\ t = t1 ++ t2.
Proof.
  unfold bind. destruct m as [t1 [e|a]]; [discriminate|].
  destruct (k a) as [t2 r] eqn:Hk. intros [= <- ->].
  exists t1, a, t2. auto.
Qed.

Lemma bind_raises_left {A B} (m : HM A) (k : A -> HM B) t e :
  m = (t, inl e) -> bind m k = (t, inl e).
Proof. intros ->. reflexivity. Qed.

Lemma bind_continues {A B} (m : HM A) (k : A -> HM B) t a :
  m = (t, inr a) -> bind m k = (t ++ fst (k a), snd (k a)).
Proof. intros ->. unfold bind. now destruct (k a). Qed.

Lemma guard_value (c : bool) (e : Exc E) (t : list (Event Samples Value)) (u : unit) :
  (if c then raise e else ret tt : HM unit) = (t, inr u) -> c = false /\ t = [].
Proof. destruct c; [discriminate|]. now intros [= <-]. Qed.

Lemma emit_value (ev : Event Samples Value) t (u : unit) :
  (emit ev : HM unit) = (t, inr u) -> t = [ev].
Proof. now intros [= <-]. Qed.

Lemma call_value {A B} (ev : A -> Event Samples Value) (f : A -> Exc E + B) a t b :
  (call ev f a : HM B) = (t, inr b) -> f a = inr b /\ t = [ev a].
Proof. unfold call. now intros [= <- ->]. Qed.

Lemma lift_value {A} (r : Exc E + A) t a :
  (lift r : HM A) = (t, inr a) -> r = inr a /\ t = [].
Proof. unfold lift. now intros [= <- ->]. Qed.

Lemma getitem_value (d : gmap string Value) (k : string) t v :
  (getitem d k : HM Value) = (t, inr v) -> d !! k = Some v /\ t = [].
Proof.
  unfold getitem. destruct (d !! k) as [w|]; [|discriminate].
  now intros [= <- ->].
Qed.

Lemma try_except_value {A} (m : HM A) (h : Exc E -> HM A) t a :
  (forall e, exists t' e', h e = (t', inl e')) ->
  try_except m h = (t, inr a) -> m = (t, inr a).
Proof.
  intros Hh. unfold try_except. destruct m as [t1 [e|a1]].
  - destruct (Hh e) as (t' & e' & ->). discriminate.
  - now intros [= <- <-].
Qed.

End Handler_monad.

Section Handler_properties.
Import Routes.
Context {E Samples Value SkinToneAnalysis ColorRecommendationResponse : Type}.
Variable rt : Core.Runtime E Value.
Variable settings : Config.Settings.
Variable image_processor : Core.ImageProcessor E Samples.
Variable color_analyzer : Core.ColorAnalyzer E Samples Value.
Variable schemas :
  Core.Schemas E Value SkinToneAnalysis ColorRecommendationResponse.

Local Abbreviation Ev := (Event Samples Value).
Local Abbreviation body_of :=
  (analyze_body rt settings image_processor color_analyzer schemas).
Local Abbreviation handler :=
  (analyze_skin_tone rt settings image_processor color_analyzer schemas).
Local Abbreviation allowed file :=
  (type_allowed (content_type file) (Config.allowed_image_types settings)).

Lemma analyze_body_value (file : UploadFile) (t : list Ev)
    (resp : ColorRecommendationResponse) :
  body_of file = (t, inr resp) ->
  allowed file = true
  /\ len (body file) <= Config.max_image_size settings
  /\ exists samples data recs c,
       Core.process_image image_processor (body file) = inr samples
       /\ Core.analyze_skin_tone color_analyzer samples = inr data
       /\ Core.get_color_recommendations color_analyzer data = inr recs
       /\ built_from schemas data recs resp
       /\ data !! "category" = Some c
       /\ t = full_trace rt file samples data c.
Proof.
  unfold analyze_body. intros H.
  peel @bind_value H u1. apply emit_value in Hstep as ->.
  peel @bind_value H u2. apply guard_value in Hstep as [Hty ->].
  peel @bind_value H content. injection Hstep as <- <-.
  peel @bind_value H u3. apply guard_value in Hstep as [Hsz ->].
  peel @bind_value H u4. apply emit_value in Hstep as ->.
  peel @bind_value H samples. apply call_value in Hstep as [Hpi ->].
  peel @bind_value H u5. apply emit_value in Hstep as ->.
  peel @bind_value H data. apply call_value in Hstep as [Han ->].
  peel @bind_value H u6. apply emit_value in Hstep as ->.
  peel @bind_value H recs. apply call_value in Hstep as [Hre ->].
  peel @bind_value H c. apply getitem_value in Hstep as [Hc ->].
  peel @bind_value H u. apply getitem_value in Hstep as [Hu ->].
  peel @bind_value H d. apply getitem_value in Hstep as [Hd ->].
  peel @bind_value H cf. apply getitem_value in Hstep as [Hcf ->].
  peel @bind_value H sta. apply lift_value in Hstep as [Hsta ->].
  peel @bind_value H r. apply getitem_value in Hstep as [Hr ->].
  peel @bind_value H a. apply getitem_value in Hstep as [Ha ->].
  peel @bind_value H p. apply getitem_value in Hstep as [Hp ->].
  peel @bind_value H tp. apply getitem_value in Hstep as [Htp ->].
  peel @bind_value H built. apply lift_value in Hstep as [Hresp ->].
  peel @bind_value H c'. apply getitem_value in Hstep as [Hc' ->].
  peel @bind_value H u7. apply emit_value in Hstep as ->.
  injection H as <- <-. subst.
  rewrite Hc in Hc'. injection Hc' as <-.
  split; [now apply negb_false_iff|].
  split; [rewrite Z.gtb_ltb in Hsz; now apply Z.ltb_ge in Hsz|].
  exists samples, data, recs, c. repeat split; try assumption.
  exists c, u, d, cf, sta, r, a, p, tp. repeat split; assumption.
Qed.

Lemma analyze_body_invalid_type (file : UploadFile) :
  allowed file = false ->
  body_of file
  = ([LogInfo ("Processing image upload: "
               +:+ Core.fmt_filename rt (filename file))],
     inl (HTTPException 400 (invalid_type_detail rt settings))).
Proof. intros H. unfold analyze_body. rewrite H. reflexivity. Qed.

Lemma analyze_body_too_large (file : UploadFile) :
  allowed file = true ->
  len (body file) > Config.max_image_size settings ->
  body_of file
  = ([LogInfo ("Processing image upload: "
               +:+ Core.fmt_filename rt (filename file));
      FileRead],
     inl (HTTPException 400 (too_large_detail rt settings))).
Proof.
  intros Hty Hsz. unfold analyze_body. rewrite Hty.
  assert ((len (body file) >? Config.max_image_size settings) = true) as Hgt
    by (rewrite Z.gtb_ltb; apply Z.ltb_lt; lia).
  cbn. rewrite Hgt. reflexivity.
Qed.

Lemma analyze_body_reaches_core (file : UploadFile) :
  allowed file = true ->
  len (body file) <= Config.max_image_size settings ->
  exists t' r,
    body_of file
    = ([LogInfo ("Processing image upload: "
                 +:+ Core.fmt_filename rt (filename file));
        FileRead;
        LogInfo "Processing image for skin tone analysis";
        Call_process_image (body file)] ++ t', r).
Proof.
  intros Hty Hsz. unfold analyze_body. rewrite Hty.
  assert ((len (body file) >? Config.max_image_size settings) = false) as Hgt
    by (rewrite Z.gtb_ltb; apply Z.ltb_ge; lia).
  cbn. rewrite Hgt. cbn.
  destruct (Core.process_image image_processor (body file)) as [e|samples].
  - exists [], (inl e). reflexivity.
  - match goal with
    | |- context [let (_, _) := ?m in (LogInfo "Analyzing skin tone" :: _, _)] =>
        destruct m as [t' r]
    end.
    exists (LogInfo "Analyzing skin tone" :: t'), r. reflexivity.
Qed.

Lemma handler_of_raise (file : UploadFile) (t : list Ev) (e : Exc E) :
  body_of file = (t, inl e) ->
  handler file
  = (t ++ [LogError (error_detail rt e)],
     inl (HTTPException 500 (error_detail rt e))).
Proof. intros H. unfold analyze_skin_tone. rewrite H. reflexivity. Qed.

Lemma handler_of_value (file : UploadFile) (t : list Ev)
    (resp : ColorRecommendationResponse) :
  body_of file = (t, inr resp) -> handler file = (t, inr resp).
Proof. intros H. unfold analyze_skin_tone. rewrite H. reflexivity. Qed.

Lemma handler_value_inv (file : UploadFile) (t : list Ev)
    (resp : ColorRecommendationResponse) :
  handler file = (t, inr resp) -> body_of file = (t, inr resp).
Proof.
  apply try_except_value. intros e. eexists _, _. reflexivity.
Qed.

(** Whatever the [try] block raises, the caller sees a 500. *)
Lemma handler_failure_is_500 (file : UploadFile) (t : list Ev) (e : Exc E) :
  handler file = (t, inl e) ->
  exists e0, e = HTTPException 500 (error_detail rt e0).
Proof.
  destruct (body_of file) as [t0 [e0|resp]] eqn:Hb.
  - rewrite (handler_of_raise _ _ _ Hb). intros [= _ <-]. now exists e0.
  - rewrite (handler_of_value _ _ _ Hb). discriminate.
Qed.

(** C2. When the handler returns a response, it has called exactly
    [process_image] on the uploaded bytes, then [analyze_skin_tone] on the
    resulting samples, then [get_color_recommendations] on the
    classification, in that order and nothing else of the core; and the
    response is built from the classification's category, undertone,
    dominant_colors and confidence and from the recommendation's
    recommended, avoid, palettes and tips. *)
Theorem analyze_skin_tone_pipeline (file : UploadFile) (t : list Ev)
    (resp : ColorRecommendationResponse) :
  handler file = (t, inr resp) ->
  exists samples data recs,
    Core.process_image image_processor (body file) = inr samples
    /\ Core.analyze_skin_tone color_analyzer samples = inr data
    /\ Core.get_color_recommendations color_analyzer data = inr recs
    /\ core_calls t
       = [Call_process_image (body file);
          Call_analyze_skin_tone samples;
          Call_get_color_recommendations data]
    /\ built_from schemas data recs resp.
Proof.
  intros H. apply handler_value_inv, analyze_body_value in H.
  destruct H as (_ & _ & samples & data & recs & c & Hp & Ha & Hr & Hb & _ & ->).
  exists samples, data, recs. repeat split; assumption || reflexivity.
Qed.

(** C3. An upload whose content type is not among the allowed ones is
    turned away by the type check: the [try] block raises the
    invalid-file-type error, the handler fails with it (wrapped by the
    [except] clause), and [process_image] is never called. *)
Theorem invalid_type_rejected_before_processing (file : UploadFile) :
  allowed file = false ->
  snd (body_of file) = inl (HTTPException 400 (invalid_type_detail rt settings))
  /\ snd (handler file)
     = inl (HTTPException 500
              (error_detail rt
                 (HTTPException 400 (invalid_type_detail rt settings))))
  /\ List.filter is_process_image_call (fst (handler file)) = [].
Proof.
  intros H. pose proof (analyze_body_invalid_type file H) as Hb.
  rewrite (handler_of_raise _ _ _ Hb), Hb. cbn. auto.
Qed.

(** The two validation errors are never the same error. *)
Lemma validation_errors_differ :
  HTTPException (E := E) 400 (invalid_type_detail rt settings)
  <> HTTPException 400 (too_large_detail rt settings).
Proof. unfold invalid_type_detail, too_large_detail. intros H. discriminate H. Qed.

(** C4, as amended. The default limit is 10*1024*1024 bytes. An upload of
    an allowed content type whose length exceeds the configured limit is
    rejected right after the read: the [try] block raises the
    file-too-large error, the handler fails with it (wrapped by the
    [except] clause) and [process_image] is never called. An upload, of
    whatever content type, whose length is at or below the limit is not
    rejected on size grounds: if its type is allowed, the size check lets
    it through and [process_image] is called on its bytes; if not, it is
    the type check that rejects it, with the invalid-file-type error,
    which is not the file-too-large one. *)
Theorem size_limit_enforced_before_processing (file : UploadFile) :
  Config.max_image_size Config.default_settings = 10 * 1024 * 1024
  /\ (allowed file = true ->
      len (body file) > Config.max_image_size settings ->
      snd (body_of file) = inl (HTTPException 400 (too_large_detail rt settings))
      /\ snd (handler file)
         = inl (HTTPException 500
                  (error_detail rt
                     (HTTPException 400 (too_large_detail rt settings))))
      /\ List.filter is_process_image_call (fst (handler file)) = [])
  /\ (len (body file) <= Config.max_image_size settings ->
      (allowed file = true ->
       In (Call_process_image (body file)) (fst (handler file)))
      /\ (allowed file = false ->
          snd (body_of file)
          = inl (HTTPException 400 (invalid_type_detail rt settings))
          /\ snd (body_of file)
             <> inl (HTTPException 400 (too_large_detail rt settings)))).
Proof.
  split; [reflexivity|]. split.
  - intros Hty Hsz. pose proof (analyze_body_too_large file Hty Hsz) as Hb.
    rewrite (handler_of_raise _ _ _ Hb), Hb. cbn. auto.
  - intros Hsz. split.
    + intros Hty.
      destruct (analyze_body_reaches_core file Hty Hsz) as (t' & r & Hb).
      destruct r as [e|resp].
      * rewrite (handler_of_raise _ _ _ Hb). cbn. tauto.
      * rewrite (handler_of_value _ _ _ Hb). cbn. tauto.
    + intros Hty. rewrite (analyze_body_invalid_type file Hty). cbn [snd].
      split; [reflexivity|].
      intros H. apply validation_errors_differ. congruence.
Qed.

(** C5. The handler ends in one of two ways only. It fails, with the 500
    of its [except] clause. Or it returns a response, and then it is the
    complete one: the three stages returned their values, each of the four
    keys of the classification and of the four keys of the recommendation
    was found in the dict that its stage returned, and the response is
    what the two constructors make of exactly those eight values. *)
Theorem analyze_skin_tone_all_or_nothing (file : UploadFile) :
  (exists e0,
      snd (handler file) = inl (HTTPException 500 (error_detail rt e0)))
  \/ (exists resp samples data recs,
        snd (handler file) = inr resp
        /\ Core.process_image image_processor (body file) = inr samples
        /\ Core.analyze_skin_tone color_analyzer samples = inr data
        /\ Core.get_color_recommendations color_analyzer data = inr recs
        /\ built_from schemas data recs resp).
Proof.
  destruct (handler file) as [t [e|resp]] eqn:H.
  - left. destruct (handler_failure_is_500 _ _ _ H) as [e0 ->]. now exists e0.
  - right. apply handler_value_inv, analyze_body_value in H.
    destruct H as (_ & _ & samples & data & recs & c & Hp & Ha & Hr & Hb & _).
    now exists resp, samples, data, recs.
Qed.

(** C10. The type check comes before the file is read: for an upload of a
    disallowed content type the outcome is the invalid-file-type failure
    whatever the bytes are (the run is the same for any other body), and
    the trace holds no read of the file. *)
Theorem type_check_precedes_read (file : UploadFile) :
  allowed file = false ->
  (forall content, handler (with_body file content) = handler file)
  /\ snd (handler file)
     = inl (HTTPException 500
              (error_detail rt
                 (HTTPException 400 (invalid_type_detail rt settings))))
  /\ List.filter is_file_read (fst (handler file)) = [].
Proof.
  intros H. pose proof (analyze_body_invalid_type file H) as Hb.
  split; [|rewrite (handler_of_raise _ _ _ Hb); cbn; auto].
  intros content.
  pose proof (analyze_body_invalid_type (with_body file content) H) as Hc.
  rewrite (handler_of_raise _ _ _ Hb), (handler_of_raise _ _ _ Hc).
  reflexivity.
Qed.

(** Every failure of the handler is the 500 of its [except] clause: the
    [try] block raised some exception [e0], the clause logged it and raised
    a 500 whose detail is the fixed prefix followed by [str(e0)]. *)
Theorem handler_failures_are_wrapped (file : UploadFile) (t : list Ev)
    (e : Exc E) :
  handler file = (t, inl e) ->
  exists t0 e0,
    body_of file = (t0, inl e0)
    /\ t = t0 ++ [LogError (error_detail rt e0)]
    /\ e = HTTPException 500 (error_detail rt e0).
Proof.
  destruct (body_of file) as [t0 [e0|resp]] eqn:Hb.
  - rewrite (handler_of_raise _ _ _ Hb). intros [= <- <-]. now exists t0, e0.
  - rewrite (handler_of_value _ _ _ Hb). discriminate.
Qed.

(** An exception of [process_image] ends the run at once: the analyzer is
    never called, and the caller gets the 500 that wraps the exception. *)
Theorem process_image_failure_stops_run (file : UploadFile) (e : Exc E) :
  allowed file = true ->
  len (body file) <= Config.max_image_size settings ->
  Core.process_image image_processor (body file) = inl e ->
  handler file
  = ([LogInfo ("Processing image upload: "
               +:+ Core.fmt_filename rt (filename file));
      FileRead;
      LogInfo "Processing image for skin tone analysis";
      Call_process_image (body file);
      LogError (error_detail rt e)],
     inl (HTTPException 500 (error_detail rt e))).
Proof.
  intros Hty Hsz Hpi.
  assert ((len (body file) >? Config.max_image_size settings) = false) as Hgt
    by (rewrite Z.gtb_ltb; apply Z.ltb_ge; lia).
  unfold analyze_skin_tone, analyze_body. rewrite Hty. cbn.
  rewrite Hgt. cbn. rewrite Hpi. reflexivity.
Qed.

End Handler_properties.

(** C1, at a failing input. A text file uploaded under the default
    settings fails the type check: the [try] block raises a 400, and yet,
    whatever the core is, the client is answered 500, the status it also
    gets when the recommendation table has a gap. *)
Theorem validation_failure_answered_500 :
  forall (E Samples Value SkinToneAnalysis ColorRecommendationResponse : Type)
         (rt : Core.Runtime E Value)
         (ip : Core.ImageProcessor E Samples)
         (ca : Core.ColorAnalyzer E Samples Value)
         (sc : Core.Schemas E Value SkinToneAnalysis ColorRecommendationResponse),
    failure_status
      (snd (Routes.analyze_body rt Config.default_settings ip ca sc Fixture.notes))
    = Some 400
    /\ failure_status
         (snd (Routes.analyze_skin_tone rt Config.default_settings ip ca sc
                 Fixture.notes))
       = Some 500
    /\ failure_status
         (snd (Fixture.handle Config.default_settings
                 Fixture.color_analyzer_with_gap Fixture.portrait))
       = Some 500.
Proof.
  intros.
  assert (Routes.type_allowed (Routes.content_type Fixture.notes)
            (Config.allowed_image_types Config.default_settings) = false) as H
    by reflexivity.
  pose proof (analyze_body_invalid_type rt Config.default_settings ip ca sc
                Fixture.notes H) as Hb.
  rewrite (handler_of_raise _ _ _ _ _ _ _ _ Hb), Hb.
  repeat split.
Qed.

Lemma analyze_skin_tone_pipeline_witness :
  exists resp samples data recs,
    snd (Fixture.handle Config.default_settings Fixture.color_analyzer
           Fixture.portrait) = inr resp
    /\ Core.process_image Fixture.image_processor
         (Routes.body Fixture.portrait) = inr samples
    /\ Core.analyze_skin_tone Fixture.color_analyzer samples = inr data
    /\ Core.get_color_recommendations Fixture.color_analyzer data = inr recs
    /\ Routes.core_calls
         (fst (Fixture.handle Config.default_settings Fixture.color_analyzer
                 Fixture.portrait))
       = [Routes.Call_process_image (Routes.body Fixture.portrait);
          Routes.Call_analyze_skin_tone samples;
          Routes.Call_get_color_recommendations data]
    /\ Routes.built_from Fixture.schemas data recs resp.
Proof.
  destruct (Fixture.handle Config.default_settings Fixture.color_analyzer
              Fixture.portrait) as [t [e|resp]] eqn:Hrun;
    [vm_compute in Hrun; discriminate|].
  destruct (analyze_skin_tone_pipeline Fixture.rt Config.default_settings
              Fixture.image_processor Fixture.color_analyzer Fixture.schemas
              Fixture.portrait t resp Hrun)
    as (samples & data & recs & H).
  exists resp, samples, data, recs. split; [reflexivity|exact H].
Defined.

Lemma invalid_type_rejected_witness :
  Routes.type_allowed (Routes.content_type Fixture.notes)
    (Config.allowed_image_types Config.default_settings) = false
  /\ snd (Fixture.handle Config.default_settings Fixture.color_analyzer
            Fixture.notes)
     = inl (HTTPException 500
              (Routes.error_detail Fixture.rt
                 (HTTPException 400
                    (Routes.invalid_type_detail Fixture.rt
                       Config.default_settings))))
  /\ List.filter Routes.is_process_image_call
       (fst (Fixture.handle Config.default_settings Fixture.color_analyzer
               Fixture.notes)) = [].
Proof.
  split; [reflexivity|].
  apply (invalid_type_rejected_before_processing Fixture.rt
           Config.default_settings Fixture.image_processor
           Fixture.color_analyzer Fixture.schemas Fixture.notes).
  reflexivity.
Defined.

(** C4, as first stated, fails: an upload one byte over the default limit
    whose content type is not allowed is rejected by the type check, with
    the invalid-file-type error and not the file-too-large one. *)
Lemma oversize_wrong_type_counterexample :
  Routes.len (Routes.body Fixture.huge_notes)
    > Config.max_image_size Config.default_settings
  /\ snd (Routes.analyze_body Fixture.rt Config.default_settings
            Fixture.image_processor Fixture.color_analyzer Fixture.schemas
            Fixture.huge_notes)
     = inl (HTTPException 400
              "Invalid file type. Allowed types: ['image/jpeg', 'image/png', 'image/webp']")
  /\ snd (Routes.analyze_body Fixture.rt Config.default_settings
            Fixture.image_processor Fixture.color_analyzer Fixture.schemas
            Fixture.huge_notes)
     <> inl (HTTPException 400
               (Routes.too_large_detail Fixture.rt Config.default_settings)).
Proof.
  assert (Routes.type_allowed (Routes.content_type Fixture.huge_notes)
            (Config.allowed_image_types Config.default_settings) = false) as H
    by reflexivity.
  rewrite (analyze_body_invalid_type Fixture.rt Config.default_settings
             Fixture.image_processor Fixture.color_analyzer Fixture.schemas
             Fixture.huge_notes H).
  split; [|split].
  - unfold Routes.len, Fixture.huge_notes, Routes.body.
    rewrite List.repeat_length, Z2Nat.id by lia. reflexivity.
  - reflexivity.
  - cbn [snd]. intros Heq. vm_compute in Heq. discriminate.
Qed.

Lemma size_limit_enforced_witness :
  Routes.type_allowed (Routes.content_type Fixture.big_portrait)
    (Config.allowed_image_types Fixture.small_settings) = true
  /\ Routes.len (Routes.body Fixture.big_portrait)
     > Config.max_image_size Fixture.small_settings
  /\ snd (Fixture.handle Fixture.small_settings Fixture.color_analyzer
            Fixture.big_portrait)
     = inl (HTTPException 500
              "Error processing image: 400: File too large. Maximum size: 4 bytes")
  /\ In (Routes.Call_process_image (Routes.body Fixture.portrait))
        (fst (Fixture.handle Fixture.small_settings Fixture.color_analyzer
                Fixture.portrait)).
Proof.
  destruct (size_limit_enforced_before_processing Fixture.rt
              Fixture.small_settings Fixture.image_processor
              Fixture.color_analyzer Fixture.schemas Fixture.big_portrait)
    as (_ & Hbig & _).
  destruct (size_limit_enforced_before_processing Fixture.rt
              Fixture.small_settings Fixture.image_processor
              Fixture.color_analyzer Fixture.schemas Fixture.portrait)
    as (_ & _ & Hsmall).
  split; [reflexivity|]. split; [reflexivity|]. split.
  - apply Hbig; reflexivity.
  - apply Hsmall; [vm_compute; discriminate|reflexivity].
Defined.

Lemma type_check_precedes_read_witness :
  Routes.type_allowed (Routes.content_type Fixture.notes)
    (Config.allowed_image_types Config.default_settings) = false
  /\ Fixture.handle Config.default_settings Fixture.color_analyzer
       (Routes.with_body Fixture.notes (Routes.body Fixture.huge_notes))
     = Fixture.handle Config.default_settings Fixture.color_analyzer
         Fixture.notes
  /\ List.filter Routes.is_file_read
       (fst (Fixture.handle Config.default_settings Fixture.color_analyzer
               Fixture.notes)) = [].
Proof.
  destruct (type_check_precedes_read Fixture.rt Config.default_settings
              Fixture.image_processor Fixture.color_analyzer Fixture.schemas
              Fixture.notes) as (Hbody & _ & Hread); [reflexivity|].
  split; [reflexivity|]. split; [apply Hbody|exact Hread].
Defined.

(** ** The tone classifier *)

Section Clustering.
Import Analysis.

Lemma draw_centroids_length (k : nat) (px : list Color) (g : Z) :
  List.length (draw_centroids k px g) = k.
Proof.
  revert g. induction k as [|k IH]; intros g; cbn [draw_centroids List.length].
  - reflexivity.
  - now rewrite IH.
Qed.

Lemma indexed_length {A} (l : list A) :
  List.length (List.combine (List.seq 0 (List.length l)) l) = List.length l.
Proof. rewrite List.length_combine, List.length_seq. apply Nat.min_id. Qed.

Lemma recentre_length (cs px : list Color) :
  List.length (recentre cs px) = List.length cs.
Proof. unfold recentre. now rewrite List.length_map, indexed_length. Qed.

Lemma lloyd_length (n : nat) (cs px : list Color) :
  List.length (lloyd n cs px) = List.length cs.
Proof.
  revert cs. induction n as [|n IH]; intros cs; cbn [lloyd].
  - reflexivity.
  - now rewrite IH, recentre_length.
Qed.


Lemma insert_by_weight_perm (c : Cluster) (l : list Cluster) :
  Permutation (insert_by_weight c l) (c :: l).
Proof.
  induction l as [|d rest IH]; cbn [insert_by_weight].
  - apply Permutation_refl.
  - destruct (Nat.ltb (weight d) (weight c)).
    + apply Permutation_refl.
    + eapply Permutation_trans; [apply perm_skip, IH|apply perm_swap].
Qed.

Lemma sort_by_weight_perm (l : list Cluster) :
  Permutation (sort_by_weight l) l.
Proof.
  induction l as [|c rest IH]; cbn [sort_by_weight].
  - apply perm_nil.
  - eapply Permutation_trans; [apply insert_by_weight_perm|].
    now apply perm_skip.
Qed.



Lemma cluster_samples_ranked (cfg : ClassifierConfig) (px : list Color) :
  snd (cluster_samples cfg px)
  = sort_by_weight
      (List.filter occupied (weigh (fst (cluster_samples cfg px)) px)).
Proof. reflexivity. Qed.

Lemma cluster_samples_count (cfg : ClassifierConfig) (px : list Color) :
  List.length (fst (cluster_samples cfg px)) = cluster_count cfg.
Proof.
  unfold cluster_samples. cbn [fst].
  now rewrite lloyd_length, draw_centroids_length.
Qed.

Lemma cluster_count_bounds (cfg : ClassifierConfig) :
  (1 <= cluster_count cfg <= 5)%nat.
Proof. unfold cluster_count. lia. Qed.


(** Every sample has a nearest centroid among those there are. *)
Lemma nearest_from_bound (p : Color) (rest : list Color) :
  forall (i best : nat) (d : Z),
    (best < i)%nat ->
    (nearest_from i rest p best d < i + List.length rest)%nat.
Proof.
  induction rest as [|c rest IH]; intros i best d Hlt; cbn [nearest_from List.length].
  - lia.
  - destruct (dist2 p c <? d).
    + specialize (IH (S i) i (dist2 p c)). lia.
    + specialize (IH (S i) best d). lia.
Qed.

Lemma nearest_bound (cs : list Color) (p : Color) :
  cs <> [] -> (nearest cs p < List.length cs)%nat.
Proof.
  destruct cs as [|c rest]; [congruence|]. intros _. cbn [nearest List.length].
  pose proof (nearest_from_bound p rest 1 0 (dist2 p c)). lia.
Qed.

Lemma indexed_In {A} (l : list A) (d : A) :
  forall (a j : nat),
    (j < List.length l)%nat ->
    In ((a + j)%nat, List.nth j l d) (List.combine (List.seq a (List.length l)) l).
Proof.
  induction l as [|x l IH]; intros a j Hj; cbn [List.length] in *; [lia|].
  cbn [List.seq List.combine]. destruct j as [|j].
  - left. now rewrite Nat.add_0_r.
  - right. replace (a + S j)%nat with (S a + j)%nat by lia.
    apply IH. lia.
Qed.

(** The cluster nearest to the first sample is occupied. *)
Lemma weigh_occupied (cs : list Color) (p : Color) (px : list Color) :
  cs <> [] ->
  exists c, In c (weigh cs (p :: px)) /\ occupied c = true.
Proof.
  intros Hcs. pose proof (nearest_bound cs p Hcs) as Hj.
  exists (mkCluster (List.nth (nearest cs p) cs black)
            (List.length (members cs (p :: px) (nearest cs p)))).
  split.
  - unfold weigh.
    apply (List.in_map
             (fun ic => mkCluster (snd ic)
                          (List.length (members cs (p :: px) (fst ic))))
             _ (nearest cs p, List.nth (nearest cs p) cs black)).
    apply (indexed_In cs black 0 (nearest cs p) Hj).
  - unfold occupied, members. cbn [List.filter weight].
    now rewrite Nat.eqb_refl.
Qed.

Lemma ranked_nonempty (cfg : ClassifierConfig) (p : Color) (px : list Color) :
  snd (cluster_samples cfg (p :: px)) <> [].
Proof.
  rewrite cluster_samples_ranked.
  destruct (weigh_occupied (fst (cluster_samples cfg (p :: px))) p px)
    as (c & Hin & Hocc).
  - intros Hnil. pose proof (cluster_samples_count cfg (p :: px)) as Hn.
    rewrite Hnil in Hn. pose proof (cluster_count_bounds cfg). cbn in Hn. lia.
  - intros Hnil.
    assert (In c (List.filter occupied
                    (weigh (fst (cluster_samples cfg (p :: px))) (p :: px))))
      as Hc by (apply List.filter_In; auto).
    apply (Permutation_in _ (Permutation_sym (sort_by_weight_perm _))) in Hc.
    rewrite Hnil in Hc. exact Hc.
Qed.

End Clustering.

Section Confidence.
Import Analysis.




End Confidence.

Section Classifier.
Import Analysis.


(** The classifier fails on no samples and on nothing else. *)
Lemma classify_succeeds (cfg : ClassifierConfig) (s : Samples) :
  pixels s <> [] -> exists r, classify cfg s = inr r.
Proof.
  unfold classify. destruct (pixels s) as [|p px]; [congruence|]. intros _.
  pose proof (ranked_nonempty cfg p px) as Hne.
  destruct (cluster_samples cfg (p :: px)) as [cs ranked].
  destruct ranked as [|top rest]; [now cbn in Hne|].
  eexists. reflexivity.
Qed.

Lemma classify_no_samples (cfg : ClassifierConfig) (s : Samples) :
  pixels s = [] -> classify cfg s = inl InsufficientDataError.
Proof. unfold classify. now intros ->. Qed.


End Classifier.



(** The examples of the spec's section 8, run on the model. *)

Example light_warm_swatch :
  Analysis.classify Fixture.cfg
    (Fixture.uniform (Analysis.mkColor 255 224 189))
  = inr (Analysis.mkResult Analysis.light Analysis.warm
           [Analysis.mkColor 255 224 189] (6 # 6)).
Proof. vm_compute. reflexivity. Qed.

Example all_black_is_dark :
  Analysis.classify Fixture.cfg (Fixture.uniform (Analysis.mkColor 0 0 0))
  = inr (Analysis.mkResult Analysis.dark Analysis.cool
           [Analysis.mkColor 0 0 0] (6 # 6)).
Proof. vm_compute. reflexivity. Qed.

Example all_white_is_fair :
  Analysis.classify Fixture.cfg
    (Fixture.uniform (Analysis.mkColor 255 255 255))
  = inr (Analysis.mkResult Analysis.fair Analysis.cool
           [Analysis.mkColor 255 255 255] (6 # 6)).
Proof. vm_compute. reflexivity. Qed.

Example fallback_lowers_confidence :
  Analysis.classify Fixture.cfg
    (Fixture.uniform_fallback (Analysis.mkColor 255 224 189))
  = inr (Analysis.mkResult Analysis.light Analysis.warm
           [Analysis.mkColor 255 224 189] (48 # 60)).
Proof. vm_compute. reflexivity. Qed.

Lemma handler_failures_are_wrapped_witness :
  exists t0,
    Routes.analyze_body Fixture.rt Config.default_settings
      Fixture.image_processor Fixture.color_analyzer_with_gap Fixture.schemas
      Fixture.portrait
    = (t0, inl (Other Analysis.UnknownCombinationError))
    /\ snd (Fixture.handle Config.default_settings
              Fixture.color_analyzer_with_gap Fixture.portrait)
       = inl (HTTPException 500
                "Error processing image: no recommendation for this combination").
Proof.
  destruct (Fixture.handle Config.default_settings
              Fixture.color_analyzer_with_gap Fixture.portrait)
    as [t [e|resp]] eqn:Hrun; [|vm_compute in Hrun; discriminate].
  destruct (handler_failures_are_wrapped Fixture.rt Config.default_settings
              Fixture.image_processor Fixture.color_analyzer_with_gap
              Fixture.schemas Fixture.portrait t e Hrun)
    as (t0 & e0 & Hb & _ & He).
  exists t0. vm_compute in Hrun. injection Hrun as _ <-.
  split; [|reflexivity].
  rewrite Hb. f_equal. f_equal.
  vm_compute in He. injection He as He.
  vm_compute in Hb. injection Hb as _ <-. reflexivity.
Defined.

Lemma process_image_failure_stops_run_witness :
  Fixture.handle Config.default_settings Fixture.color_analyzer
    Fixture.broken_image
  = ([Routes.LogInfo "Processing image upload: empty.png";
      Routes.FileRead;
      Routes.LogInfo "Processing image for skin tone analysis";
      Routes.Call_process_image [];
      Routes.LogError "Error processing image: cannot identify image file"],
     inl (HTTPException 500 "Error processing image: cannot identify image file")).
Proof.
  apply (process_image_failure_stops_run Fixture.rt Config.default_settings
           Fixture.image_processor Fixture.color_analyzer Fixture.schemas
           Fixture.broken_image (Other Analysis.DecodeError)).
  - reflexivity.
  - vm_compute. discriminate.
  - reflexivity.
Defined.

(** ** More on the settings singleton *)

Section Settings_lifecycle.
Import Config.
Variable P : Parsers.

Lemma get_settings_unset (env : Env) (st : ModuleState) :
  _settings st = None ->
  get_settings P env st
  = match Settings_init P env with
    | inl e => (inl e, st)
    | inr s =>
        (inr (List.length (heap st)),
         {| heap := heap st ++ [s]; _settings := Some (List.length (heap st)) |})
    end.
Proof. intros H. unfold get_settings, alloc. now rewrite H. Qed.

(** A call that fails has changed nothing: the global is still unset, the
    failure is that of [Settings()] under the call's environment, and a
    later call under an environment that parses builds the object then. *)
Theorem get_settings_failure_is_retried (env : Env) (st st' : ModuleState)
    (e : ValidationError) :
  get_settings P env st = (inl e, st') ->
  st' = st
  /\ _settings st = None
  /\ Settings_init P env = inl e
  /\ (forall env' s,
        Settings_init P env' = inr s ->
        exists o st'',
          get_settings P env' st' = (inr o, st'')
          /\ deref st'' o = Some s /\ _settings st'' = Some o).
Proof.
  destruct (_settings st) as [l|] eqn:Hs.
  - rewrite (get_settings_stored P env st l Hs). discriminate.
  - rewrite (get_settings_unset env st Hs).
    destruct (Settings_init P env) as [e0|s0]; [|discriminate].
    intros [= <- <-]. do 3 (split; [reflexivity|]).
    intros env' s Hinit. rewrite (get_settings_unset env' st Hs), Hinit.
    eexists _, _. split; [reflexivity|]. split; [|reflexivity].
    unfold deref. cbn [heap].
    rewrite lookup_app_r by lia. now rewrite Nat.sub_diag.
Qed.

Lemma get_settings_many_unset (envs : list Env) (st : ModuleState) :
  _settings st = None ->
  List.Forall
    (fun r => match r with inl _ => True | inr l => l = List.length (heap st) end)
    (fst (get_settings_many P envs st))
  /\ (List.length (heap (snd (get_settings_many P envs st)))
      <= S (List.length (heap st)))%nat.
Proof.
  intros Hs.
  induction envs as [|env rest IH]; cbn [get_settings_many].
  - cbn. split; [constructor|lia].
  - rewrite (get_settings_unset env st Hs).
    destruct (Settings_init P env) as [e|s].
    + destruct (get_settings_many P rest st) as [rs st2]. cbn in *.
      destruct IH as [IH1 IH2]. split; [now constructor|exact IH2].
    + rewrite (get_settings_many_stored P rest
                 {| heap := heap st ++ [s];
                    _settings := Some (List.length (heap st)) |}
                 (List.length (heap st)) eq_refl).
      cbn. split.
      * constructor; [reflexivity|].
        apply List.Forall_forall. intros r Hr.
        apply List.in_map_iff in Hr as (x & <- & _). reflexivity.
      * rewrite List.length_app. cbn. lia.
Qed.

(** In a fresh process, whatever the calls and their environments, at most
    one [Settings] object is ever built, and every call that returns
    returns that one. *)
Theorem get_settings_builds_at_most_one (envs : list Env) :
  List.Forall
    (fun r => match r with inl _ => True | inr l => l = 0%nat end)
    (fst (get_settings_many P envs initial_state))
  /\ (List.length (heap (snd (get_settings_many P envs initial_state))) <= 1)%nat.
Proof. apply (get_settings_many_unset envs initial_state). reflexivity. Qed.

End Settings_lifecycle.

Lemma get_settings_failure_is_retried_witness :
  Config.get_settings Fixture.parsers Fixture_more.bad_env Config.initial_state
  = (inl (Config.InvalidField "debug"), Config.initial_state)
  /\ exists o st,
       Config.get_settings Fixture.parsers Fixture_more.debug_env
         Config.initial_state = (inr o, st)
       /\ Config.deref st o
          = Some (Config.mkSettings true (10 * 1024 * 1024)
                    ["image/jpeg"; "image/png"; "image/webp"]).
Proof.
  split; [reflexivity|].
  destruct (get_settings_failure_is_retried Fixture.parsers
              Fixture_more.bad_env Config.initial_state Config.initial_state
              (Config.InvalidField "debug") eq_refl)
    as (_ & _ & _ & Hretry).
  destruct (Hretry Fixture_more.debug_env
              (Config.mkSettings true (10 * 1024 * 1024)
                 ["image/jpeg"; "image/png"; "image/webp"]) eq_refl)
    as (o & st & Hcall & Hderef & _).
  exists o, st. split; assumption.
Defined.

(** ** Starting the application *)

Section Startup_properties.
Import Config App Main.
Variable P : Parsers.

Lemma create_app_stored (env : Env) (st : ModuleState) (l : loc) (s : Settings) :
  _settings st = Some l -> deref st l = Some s ->
  exists created,
    create_app P env st = (inr created, st)
    /\ docs_url created = (if debug s then Some "/docs" else None)
    /\ redoc_url created = (if debug s then Some "/redoc" else None)
    /\ add_route (add_middleware created cors)
         (APIRoute "GET" "/health" "health_check" [])
       = started_app s false
    /\ add_route
         (add_route (add_middleware created cors)
            (Mount "/static" "static" "static"))
         (APIRoute "GET" "/health" "health_check" [])
       = started_app s true.
Proof.
  intros Hs Hd. unfold create_app.
  rewrite (get_settings_stored P env st l Hs), Hd.
  eexists. split; [reflexivity|]. repeat split.
Qed.

Lemma main_closed_form (env0 env1 : Env) (static_exists : bool) :
  main P env0 env1 static_exists
  = match Settings_init P env0 with
    | inl e => inl (InvalidSettings e)
    | inr s =>
        inr {| app := started_app s static_exists;
               router_settings := 0%nat;
               config_state := {| heap := [s]; _settings := Some 0%nat |} |}
    end.
Proof.
  unfold main. rewrite (get_settings_unset P env0 initial_state eq_refl).
  destruct (Settings_init P env0) as [e|s]; [reflexivity|].
  cbn [heap initial_state List.length app].
  destruct (create_app_stored env1 {| heap := [] ++ [s]; _settings := Some 0%nat |}
              0%nat s eq_refl eq_refl)
    as (created & -> & _ & _ & Hplain & Hstatic).
  destruct static_exists; [now rewrite Hstatic|now rewrite Hplain].
Qed.

(** The settings are fixed when the routes module is imported: whatever
    [load_dotenv()] and anything else do to the environment between that
    import and [create_app()], the process starts the same way, or fails
    the same way. *)
Theorem main_ignores_later_environment (env0 env1 env1' : Env)
    (static_exists : bool) :
  main P env0 env1 static_exists = main P env0 env1' static_exists.
Proof. now rewrite !main_closed_form. Qed.

(** Whenever the process starts, the routes module and the application
    were configured from one and the same [Settings] object, the one the
    config module keeps; and the application serves the interactive docs
    and the redoc page both if that object's [debug] is set, and neither
    otherwise. *)
Theorem started_app_follows_settings (env0 env1 : Env) (static_exists : bool)
    (started : Started) :
  main P env0 env1 static_exists = inr started ->
  _settings (config_state started) = Some (router_settings started)
  /\ exists s,
       deref (config_state started) (router_settings started) = Some s
       /\ docs_url (app started) = (if debug s then Some "/docs" else None)
       /\ redoc_url (app started) = (if debug s then Some "/redoc" else None).
Proof.
  rewrite main_closed_form.
  destruct (Settings_init P env0) as [v|s]; [discriminate|].
  intros [= <-]. split; [reflexivity|]. exists s. repeat split.
Qed.

End Startup_properties.

(** ** The palettes endpoint *)

Section Palettes_properties.
Import Routes Endpoints.
Context {E Samples Value Response : Type}.
Variable rt : Core.Runtime E Value.
Variable get_all_palettes : unit -> Exc E + Value.
Variable JSONResponse : gmap string Value -> Exc E + Response.

Local Abbreviation run :=
  (get_color_palettes (Samples := Samples) rt get_all_palettes JSONResponse).

(** [get_color_palettes] ends in one of two ways. Either the analyzer
    returned the palettes and they rendered: the response is the rendering
    of the one-key dict and nothing is logged. Or one of the two raised:
    the exception's text goes to the log, and the client gets a 500 whose
    detail is the same fixed sentence whatever was raised. *)
Theorem get_color_palettes_outcome :
  (exists palettes resp,
      get_all_palettes tt = inr palettes
      /\ JSONResponse {[ "palettes" := palettes ]} = inr resp
      /\ run = ([], inr resp))
  \/ (exists e,
        (get_all_palettes tt = inl e
         \/ exists palettes,
              get_all_palettes tt = inr palettes
              /\ JSONResponse {[ "palettes" := palettes ]} = inl e)
        /\ run
           = ([LogError ("Error fetching color palettes: "
                         +:+ Core.str_exc rt e)],
              inl (HTTPException 500 "Error fetching color palettes"))).
Proof.
  unfold get_color_palettes, try_except, bind, lift.
  destruct (get_all_palettes tt) as [e|palettes].
  - right. exists e. split; [now left|reflexivity].
  - destruct (JSONResponse {[ "palettes" := palettes ]}) as [e|resp] eqn:Hr.
    + right. exists e. split; [right; now exists palettes|reflexivity].
    + left. now exists palettes, resp.
Qed.

End Palettes_properties.

(** ** Every run of the upload handler, stage by stage *)

Section Handler_runs.
Import Routes Endpoints.
Context {E Samples Value SkinToneAnalysis ColorRecommendationResponse : Type}.
Variable rt : Core.Runtime E Value.
Variable settings : Config.Settings.
Variable image_processor : Core.ImageProcessor E Samples.
Variable color_analyzer : Core.ColorAnalyzer E Samples Value.
Variable schemas :
  Core.Schemas E Value SkinToneAnalysis ColorRecommendationResponse.

Local Abbreviation Ev := (Event Samples Value).
Local Abbreviation body_of :=
  (analyze_body rt settings image_processor color_analyzer schemas).
Local Abbreviation handler :=
  (analyze_skin_tone rt settings image_processor color_analyzer schemas).
Local Abbreviation allowed file :=
  (type_allowed (content_type file) (Config.allowed_image_types settings)).
Local Abbreviation respond :=
  (build_response (Samples := Samples) rt schemas).

Lemma getitem_found (d : gmap string Value) (k : string) (v : Value) :
  d !! k = Some v -> (getitem d k : M E Samples Value Value) = ([], inr v).
Proof. intros H. unfold getitem. now rewrite H. Qed.

Lemma getitem_missing (d : gmap string Value) (k : string) :
  d !! k = None -> (getitem d k : M E Samples Value Value) = ([], inl (KeyError k)).
Proof. intros H. unfold getitem. now rewrite H. Qed.

(** Building the response logs one line when it succeeds and nothing when
    it fails. *)
Lemma build_response_cases (data recs : gmap string Value) :
  (exists e, respond data recs = ([], inl e))
  \/ (exists c resp,
        data !! "category" = Some c
        /\ built_from schemas data recs resp
        /\ respond data recs
           = ([LogInfo ("Analysis complete. Skin tone: "
                        +:+ Core.fmt_value rt c)],
              inr resp)).
Proof.
  unfold build_response, built_from.
  destruct (data !! "category") as [c|] eqn:Hc;
    [rewrite (getitem_found _ _ _ Hc)
    |rewrite (getitem_missing _ _ Hc); left; eexists; reflexivity].
  destruct (data !! "undertone") as [u|] eqn:Hu;
    [rewrite (getitem_found _ _ _ Hu)
    |rewrite (getitem_missing _ _ Hu); left; eexists; reflexivity].
  destruct (data !! "dominant_colors") as [d|] eqn:Hd;
    [rewrite (getitem_found _ _ _ Hd)
    |rewrite (getitem_missing _ _ Hd); left; eexists; reflexivity].
  destruct (data !! "confidence") as [cf|] eqn:Hcf;
    [rewrite (getitem_found _ _ _ Hcf)
    |rewrite (getitem_missing _ _ Hcf); left; eexists; reflexivity].
  cbn [bind app lift].
  destruct (Core.SkinToneAnalysis_new schemas c u d cf) as [e|sta] eqn:Hsta;
    [left; eexists; reflexivity|].
  cbn [bind app lift].
  destruct (recs !! "recommended") as [r|] eqn:Hr;
    [rewrite (getitem_found _ _ _ Hr)
    |rewrite (getitem_missing _ _ Hr); left; eexists; reflexivity].
  destruct (recs !! "avoid") as [a|] eqn:Ha;
    [rewrite (getitem_found _ _ _ Ha)
    |rewrite (getitem_missing _ _ Ha); left; eexists; reflexivity].
  destruct (recs !! "palettes") as [p|] eqn:Hp;
    [rewrite (getitem_found _ _ _ Hp)
    |rewrite (getitem_missing _ _ Hp); left; eexists; reflexivity].
  destruct (recs !! "tips") as [tp|] eqn:Htp;
    [rewrite (getitem_found _ _ _ Htp)
    |rewrite (getitem_missing _ _ Htp); left; eexists; reflexivity].
  cbn [bind app lift].
  destruct (Core.ColorRecommendationResponse_new schemas sta r a p tp)
    as [e|resp] eqn:Hresp; [left; eexists; reflexivity|].
  right. exists c, resp. split; [reflexivity|]. split; [|reflexivity].
  exists c, u, d, cf, sta, r, a, p, tp. repeat split; assumption.
Qed.

Lemma analyze_body_stages (file : UploadFile) :
  body_of file
  = (logger_info ("Processing image upload: "
                  +:+ Core.fmt_filename rt (filename file)) ;;
     (if negb (allowed file)
      then raise (HTTPException 400 (invalid_type_detail rt settings))
      else ret tt) ;;
     file_content <- read file ;;
     (if len file_content >? Config.max_image_size settings
      then raise (HTTPException 400 (too_large_detail rt settings))
      else ret tt) ;;
     logger_info "Processing image for skin tone analysis" ;;
     samples <-
       call Call_process_image (Core.process_image image_processor)
         file_content ;;
     logger_info "Analyzing skin tone" ;;
     data <-
       call Call_analyze_skin_tone (Core.analyze_skin_tone color_analyzer)
         samples ;;
     logger_info "Generating color recommendations" ;;
     recs <-
       call Call_get_color_recommendations
         (Core.get_color_recommendations color_analyzer) data ;;
     respond data recs)%handler.
Proof. reflexivity. Qed.

Lemma size_ok (file : UploadFile) :
  len (body file) <= Config.max_image_size settings ->
  (len (body file) >? Config.max_image_size settings) = false.
Proof. intros H. rewrite Z.gtb_ltb. apply Z.ltb_ge. lia. Qed.

Lemma analyze_body_process_fails (file : UploadFile) (e : Exc E) :
  allowed file = true ->
  len (body file) <= Config.max_image_size settings ->
  Core.process_image image_processor (body file) = inl e ->
  body_of file = (trace_process rt file, inl e).
Proof.
  intros Hty Hsz Hpi. rewrite analyze_body_stages, Hty.
  cbn. rewrite (size_ok file Hsz). cbn. rewrite Hpi. reflexivity.
Qed.

Lemma analyze_body_analyze_fails (file : UploadFile) (samples : Samples)
    (e : Exc E) :
  allowed file = true ->
  len (body file) <= Config.max_image_size settings ->
  Core.process_image image_processor (body file) = inr samples ->
  Core.analyze_skin_tone color_analyzer samples = inl e ->
  body_of file = (trace_analyze rt file samples, inl e).
Proof.
  intros Hty Hsz Hpi Han. rewrite analyze_body_stages, Hty.
  cbn. rewrite (size_ok file Hsz). cbn. rewrite Hpi. cbn. rewrite Han.
  reflexivity.
Qed.

Lemma analyze_body_recommend_fails (file : UploadFile) (samples : Samples)
    (data : gmap string Value) (e : Exc E) :
  allowed file = true ->
  len (body file) <= Config.max_image_size settings ->
  Core.process_image image_processor (body file) = inr samples ->
  Core.analyze_skin_tone color_analyzer samples = inr data ->
  Core.get_color_recommendations color_analyzer data = inl e ->
  body_of file = (trace_recommend rt file samples data, inl e).
Proof.
  intros Hty Hsz Hpi Han Hre. rewrite analyze_body_stages, Hty.
  cbn. rewrite (size_ok file Hsz). cbn. rewrite Hpi. cbn. rewrite Han.
  cbn. rewrite Hre. reflexivity.
Qed.

Lemma analyze_body_responds (file : UploadFile) (samples : Samples)
    (data recs : gmap string Value) :
  allowed file = true ->
  len (body file) <= Config.max_image_size settings ->
  Core.process_image image_processor (body file) = inr samples ->
  Core.analyze_skin_tone color_analyzer samples = inr data ->
  Core.get_color_recommendations color_analyzer data = inr recs ->
  body_of file
  = (trace_recommend rt file samples data ++ fst (respond data recs),
     snd (respond data recs)).
Proof.
  intros Hty Hsz Hpi Han Hre. rewrite analyze_body_stages, Hty.
  cbn - [build_response]. rewrite (size_ok file Hsz).
  cbn - [build_response]. rewrite Hpi. cbn - [build_response]. rewrite Han.
  cbn - [build_response]. rewrite Hre.
  destruct (respond data recs) as [tb rb]. reflexivity.
Qed.

Local Abbreviation runs := (body_run rt settings image_processor color_analyzer schemas).

(** Every run of the [try] block is one of the seven. *)
Lemma analyze_body_run (file : UploadFile) :
  runs file (fst (body_of file)) (snd (body_of file)).
Proof.
  destruct (allowed file) eqn:Hty.
  2: { rewrite (analyze_body_invalid_type rt settings image_processor
                  color_analyzer schemas file Hty).
       now apply run_invalid_type. }
  destruct (Z_le_gt_dec (len (body file)) (Config.max_image_size settings))
    as [Hsz|Hsz].
  2: { rewrite (analyze_body_too_large rt settings image_processor
                  color_analyzer schemas file Hty Hsz).
       now apply run_too_large. }
  destruct (Core.process_image image_processor (body file))
    as [e|samples] eqn:Hpi.
  { rewrite (analyze_body_process_fails file e Hty Hsz Hpi).
    now apply run_process_failed. }
  destruct (Core.analyze_skin_tone color_analyzer samples) as [e|data] eqn:Han.
  { rewrite (analyze_body_analyze_fails file samples e Hty Hsz Hpi Han).
    now apply run_analyze_failed. }
  destruct (Core.get_color_recommendations color_analyzer data)
    as [e|recs] eqn:Hre.
  { rewrite (analyze_body_recommend_fails file samples data e Hty Hsz Hpi Han Hre).
    now apply run_recommend_failed. }
  rewrite (analyze_body_responds file samples data recs Hty Hsz Hpi Han Hre).
  destruct (build_response_cases data recs) as [(e & Hb)|(c & resp & Hc & Hbuilt & Hb)];
    rewrite Hb; cbn [fst snd].
  - rewrite List.app_nil_r. now apply run_response_failed with (recs := recs).
  - now apply run_complete with (recs := recs).
Qed.

(** The handler's own run, from the run of its [try] block. *)
Lemma handler_run (file : UploadFile) :
  exists t r,
    runs file t r
    /\ handler file
       = match r with
         | inl e =>
             (t ++ [LogError (error_detail rt e)],
              inl (HTTPException 500 (error_detail rt e)))
         | inr resp => (t, inr resp)
         end.
Proof.
  exists (fst (body_of file)), (snd (body_of file)).
  split; [apply analyze_body_run|].
  unfold analyze_skin_tone. destruct (body_of file) as [t [e|resp]]; reflexivity.
Qed.

(** On any upload, the handler calls into the core along the pipeline and
    never off it: nothing; or [process_image] on the upload's bytes; or
    that and then [analyze_skin_tone] on the samples it returned; or those
    and then [get_color_recommendations] on the dict the analysis
    returned. No stage is called after a failed one, or twice. *)
Theorem core_calls_follow_pipeline (file : UploadFile) :
  core_calls (fst (handler file)) = []
  \/ core_calls (fst (handler file)) = [Call_process_image (body file)]
  \/ (exists samples,
        Core.process_image image_processor (body file) = inr samples
        /\ core_calls (fst (handler file))
           = [Call_process_image (body file); Call_analyze_skin_tone samples])
  \/ (exists samples data,
        Core.process_image image_processor (body file) = inr samples
        /\ Core.analyze_skin_tone color_analyzer samples = inr data
        /\ core_calls (fst (handler file))
           = [Call_process_image (body file); Call_analyze_skin_tone samples;
              Call_get_color_recommendations data]).
Proof.
  destruct (handler_run file) as (t & r & Hrun & ->).
  destruct Hrun.
  - left. reflexivity.
  - left. reflexivity.
  - right. left. reflexivity.
  - right. right. left. exists samples. now split.
  - right. right. right. exists samples, data. now repeat split.
  - right. right. right. exists samples, data. now repeat split.
  - right. right. right. exists samples, data. now repeat split.
Qed.

(** The handler writes one error line to the log when it fails and none
    when it returns a response. *)
Theorem error_logged_iff_failed (file : UploadFile) :
  List.length (List.filter is_log_error (fst (handler file)))
  = match snd (handler file) with
    | inl _ => 1%nat
    | inr _ => 0%nat
    end.
Proof.
  destruct (handler_run file) as (t & r & Hrun & ->).
  destruct Hrun; reflexivity.
Qed.

(** The uploaded file is read once when its content type passes the check
    and not at all when it does not. *)
Theorem file_read_once_iff_type_allowed (file : UploadFile) :
  List.length (List.filter is_file_read (fst (handler file)))
  = if allowed file then 1%nat else 0%nat.
Proof.
  destruct (handler_run file) as (t & r & Hrun & ->).
  destruct Hrun as [Hty|Hty ?|? Hty|? ? Hty|? ? ? Hty|? ? ? ? Hty|? ? ? ? ? Hty];
    rewrite Hty; reflexivity.
Qed.

Lemma build_response_built (data recs : gmap string Value) (c : Value)
    (resp : ColorRecommendationResponse) :
  data !! "category" = Some c ->
  built_from schemas data recs resp ->
  respond data recs
  = ([LogInfo ("Analysis complete. Skin tone: " +:+ Core.fmt_value rt c)],
     inr resp).
Proof.
  intros Hc (c0 & u & d & cf & sta & r & a & p & tp & Hc0 & Hu & Hd & Hcf
            & Hsta & Hr & Ha & Hp & Htp & Hresp).
  rewrite Hc in Hc0. injection Hc0 as <-.
  unfold build_response.
  rewrite !(getitem_found _ _ _ Hc), (getitem_found _ _ _ Hu),
    (getitem_found _ _ _ Hd), (getitem_found _ _ _ Hcf),
    (getitem_found _ _ _ Hr), (getitem_found _ _ _ Ha),
    (getitem_found _ _ _ Hp), (getitem_found _ _ _ Htp).
  cbn [bind app lift]. rewrite Hsta. cbn [bind app lift]. rewrite Hresp.
  reflexivity.
Qed.

(** The handler returns a response whenever nothing stands in the way: the
    content type is allowed, the length is within the limit, the three
    calls into the core return values, the eight keys are there and the
    two constructors accept them. The log then holds its five lines and
    no error. *)
Theorem analyze_skin_tone_succeeds (file : UploadFile) (samples : Samples)
    (data recs : gmap string Value) (c : Value)
    (resp : ColorRecommendationResponse) :
  allowed file = true ->
  len (body file) <= Config.max_image_size settings ->
  Core.process_image image_processor (body file) = inr samples ->
  Core.analyze_skin_tone color_analyzer samples = inr data ->
  Core.get_color_recommendations color_analyzer data = inr recs ->
  data !! "category" = Some c ->
  built_from schemas data recs resp ->
  handler file = (full_trace rt file samples data c, inr resp).
Proof.
  intros Hty Hsz Hpi Han Hre Hc Hbuilt.
  apply handler_of_value.
  rewrite (analyze_body_responds file samples data recs Hty Hsz Hpi Han Hre).
  now rewrite (build_response_built data recs c resp Hc Hbuilt).
Qed.

Lemma build_response_missing (data recs : gmap string Value) (k : string) :
  first_missing data skin_tone_keys = Some k ->
  respond data recs = ([], inl (KeyError k)).
Proof.
  unfold first_missing, skin_tone_keys, build_response.
  destruct (data !! "category") as [c|] eqn:Hc;
    [rewrite !(getitem_found _ _ _ Hc)
    |rewrite !(getitem_missing _ _ Hc); now intros [= <-]].
  destruct (data !! "undertone") as [u|] eqn:Hu;
    [rewrite (getitem_found _ _ _ Hu)
    |rewrite (getitem_missing _ _ Hu); now intros [= <-]].
  destruct (data !! "dominant_colors") as [d|] eqn:Hd;
    [rewrite (getitem_found _ _ _ Hd)
    |rewrite (getitem_missing _ _ Hd); now intros [= <-]].
  destruct (data !! "confidence") as [cf|] eqn:Hcf;
    [discriminate|rewrite (getitem_missing _ _ Hcf); now intros [= <-]].
Qed.

(** A classification that lacks one of the four keys the handler reads
    is found out late. The handler first hands it to
    [get_color_recommendations]; the run then fails with the 500 of the
    [except] clause, which wraps the recommender's exception if it raised
    and otherwise the [KeyError] of the first key missing in reading
    order. *)
Theorem missing_key_fails_after_pipeline (file : UploadFile)
    (samples : Samples) (data : gmap string Value) (k : string) :
  allowed file = true ->
  len (body file) <= Config.max_image_size settings ->
  Core.process_image image_processor (body file) = inr samples ->
  Core.analyze_skin_tone color_analyzer samples = inr data ->
  first_missing data skin_tone_keys = Some k ->
  exists e,
    match Core.get_color_recommendations color_analyzer data with
    | inl raised => e = raised
    | inr _ => e = KeyError k
    end
    /\ handler file
       = (trace_recommend rt file samples data
          ++ [LogError (error_detail rt e)],
          inl (HTTPException 500 (error_detail rt e))).
Proof.
  intros Hty Hsz Hpi Han Hk.
  destruct (Core.get_color_recommendations color_analyzer data)
    as [raised|recs] eqn:Hre.
  - exists raised. split; [reflexivity|]. apply handler_of_raise.
    now apply analyze_body_recommend_fails.
  - exists (KeyError k). split; [reflexivity|]. apply handler_of_raise.
    rewrite (analyze_body_responds file samples data recs Hty Hsz Hpi Han Hre).
    rewrite (build_response_missing data recs k Hk). cbn [fst snd].
    now rewrite List.app_nil_r.
Qed.

(** The file name of an upload is logged and nothing more: the outcome of
    the handler, response or failure, is the same under any other name. *)
Theorem filename_only_logged (file : UploadFile) (name : option string) :
  snd (handler (with_filename file name)) = snd (handler file)
  /\ core_calls (fst (handler (with_filename file name)))
     = core_calls (fst (handler file)).
Proof.
  unfold analyze_skin_tone.
  rewrite !analyze_body_stages.
  unfold read. cbn [with_filename content_type body filename].
  match goal with
  | |- context [bind (logger_info _) ?k] => set (rest := k)
  end.
  unfold logger_info, emit, bind, try_except.
  destruct (rest tt) as [t [e|resp]]; cbn; rewrite ?List.filter_app;
    split; reflexivity.
Qed.

End Handler_runs.

Lemma analyze_skin_tone_succeeds_witness :
  Fixture.handle Config.default_settings Fixture.color_analyzer Fixture.portrait
  = (Routes.full_trace Fixture.rt Fixture.portrait
       Fixture_more.portrait_samples Fixture_more.portrait_data
       (Fixture.Text "light"),
     inr Fixture_more.portrait_response).
Proof.
  apply (analyze_skin_tone_succeeds Fixture.rt Config.default_settings
           Fixture.image_processor Fixture.color_analyzer Fixture.schemas
           Fixture.portrait Fixture_more.portrait_samples
           Fixture_more.portrait_data Fixture.some_advice
           (Fixture.Text "light") Fixture_more.portrait_response).
  - vm_compute. reflexivity.
  - vm_compute. discriminate.
  - vm_compute. reflexivity.
  - vm_compute. reflexivity.
  - vm_compute. reflexivity.
  - vm_compute. reflexivity.
  - exists (Fixture.Text "light"), (Fixture.Text "cool"),
      (Fixture.Colors (Analysis.dominant_colors Fixture_more.portrait_result)),
      (Fixture.Number (3 # 3)%Q),
      (Fixture.skin_tone Fixture_more.portrait_response),
      (Fixture.Texts ["navy"; "emerald"]), (Fixture.Texts ["neon yellow"]),
      (Fixture.Palettes [("classic", ["navy"; "white"])]),
      (Fixture.Texts ["Wear what you like."]).
    repeat split; vm_compute; reflexivity.
Defined.

Lemma missing_key_fails_after_pipeline_witness :
  Routes.analyze_skin_tone Fixture.rt Config.default_settings
    Fixture.image_processor Fixture_more.color_analyzer_without_confidence
    Fixture.schemas Fixture.portrait
  = (Endpoints.trace_recommend Fixture.rt Fixture.portrait
       Fixture_more.portrait_samples
       (delete "confidence" Fixture_more.portrait_data)
     ++ [Routes.LogError
           (Routes.error_detail Fixture.rt (KeyError "confidence"))],
     inl (HTTPException 500
            (Routes.error_detail Fixture.rt (KeyError "confidence")))).
Proof.
  destruct (missing_key_fails_after_pipeline Fixture.rt Config.default_settings
              Fixture.image_processor
              Fixture_more.color_analyzer_without_confidence Fixture.schemas
              Fixture.portrait Fixture_more.portrait_samples
              (delete "confidence" Fixture_more.portrait_data) "confidence")
    as (e & He & Hrun).
  - vm_compute. reflexivity.
  - vm_compute. discriminate.
  - vm_compute. reflexivity.
  - vm_compute. reflexivity.
  - vm_compute. reflexivity.
  - cbn in He. subst e. exact Hrun.
Defined.

Lemma started_app_follows_settings_witness :
  exists started,
    Main.main Fixture.parsers Fixture_more.debug_env Fixture_more.bad_env true
    = inr started
    /\ App.docs_url (Main.app started) = Some "/docs"
    /\ App.redoc_url (Main.app started) = Some "/redoc".
Proof.
  destruct (Main.main Fixture.parsers Fixture_more.debug_env
              Fixture_more.bad_env true) as [e|started] eqn:Hrun;
    [vm_compute in Hrun; discriminate|].
  exists started. split; [reflexivity|].
  destruct (started_app_follows_settings Fixture.parsers
              Fixture_more.debug_env Fixture_more.bad_env true started Hrun)
    as (_ & s & Hs & Hdocs & Hredoc).
  vm_compute in Hrun. injection Hrun as <-.
  vm_compute in Hs. injection Hs as <-.
  split; [exact Hdocs|exact Hredoc].
Defined.
